(** * algo-trading: backtest engine, strategies and performance analytics

    A shallow embedding of the Python sources
      src/analytics/performance_analyzer.py
      src/backtesting/backtest_engine.py
      src/backtesting/base_strategy.py
      src/strategies/{ma_crossover,rsi_strategy,bb_strategy,momentum_strategy}.py
      src/cli.py, src/utils/visualization.py
    and the properties the specification states about them.

    Numbers.  Python and numpy floats are modelled by exact rationals [Q]
    extended with the IEEE special values (type [fl] below): rounding is
    ignored, NaN and the infinities are kept, because several properties are
    about them.  The model has no overflow and no underflow: a property
    that a double-precision overflow or underflow would break is stated
    for magnitudes inside a range where neither can happen
    ([Float.float_safeb] below).  Python [int] counters are [Z]. *)

From Stdlib Require Import String Bool ZArith QArith Qminmax Qabs Qpower Lia List.
From Stdlib Require Import Reals Qreals Psatz.
From Stdlib Require Import Sorted Morphisms.
Import ListNotations.

Local Open Scope Q_scope.

(** ** Float values *)

Module Float.

(** A float is NaN, an infinity, or a finite number. *)
Inductive fl : Type :=
| NaN
| PInf
| NInf
| Num (q : Q).

Definition Qltb (x y : Q) : bool := negb (Qle_bool y x).
Definition Qzerob (x : Q) : bool := Qeq_bool x 0.

Definition fneg (a : fl) : fl :=
  match a with
  | NaN => NaN
  | PInf => NInf
  | NInf => PInf
  | Num q => Num (- q)
  end.

Definition fadd (a b : fl) : fl :=
  match a, b with
  | NaN, _ | _, NaN => NaN
  | PInf, NInf | NInf, PInf => NaN
  | PInf, _ | _, PInf => PInf
  | NInf, _ | _, NInf => NInf
  | Num x, Num y => Num (x + y)
  end.

Definition fsub (a b : fl) : fl := fadd a (fneg b).

(** An infinity with the sign of [q]; NaN when [q] is zero. *)
Definition inf_signed (positive : bool) (q : Q) : fl :=
  if Qzerob q then NaN
  else if Bool.eqb positive (Qltb 0 q) then PInf else NInf.

Definition fmul (a b : fl) : fl :=
  match a, b with
  | NaN, _ | _, NaN => NaN
  | PInf, PInf | NInf, NInf => PInf
  | PInf, NInf | NInf, PInf => NInf
  | PInf, Num q | Num q, PInf => inf_signed true q
  | NInf, Num q | Num q, NInf => inf_signed false q
  | Num x, Num y => Num (x * y)
  end.

(** numpy division: [x / 0] is an infinity, [0 / 0] is NaN. *)
Definition fdiv (a b : fl) : fl :=
  match a, b with
  | NaN, _ | _, NaN => NaN
  | (PInf | NInf), (PInf | NInf) => NaN
  | PInf, Num q => if Qltb q 0 then NInf else PInf
  | NInf, Num q => if Qltb q 0 then PInf else NInf
  | Num _, (PInf | NInf) => Num 0
  | Num x, Num y =>
      if Qzerob y then inf_signed true x else Num (x / y)
  end.

(** Comparisons; every comparison with NaN is false. *)
Definition flt (a b : fl) : bool :=
  match a, b with
  | NaN, _ | _, NaN => false
  | _, NInf => false
  | NInf, _ => true
  | PInf, _ => false
  | _, PInf => true
  | Num x, Num y => Qltb x y
  end.

Definition feq (a b : fl) : bool :=
  match a, b with
  | PInf, PInf | NInf, NInf => true
  | Num x, Num y => Qeq_bool x y
  | _, _ => false
  end.

Definition is_nan (a : fl) : bool :=
  match a with NaN => true | _ => false end.

(** The value is a finite number equal to zero. *)
Definition is_zero (a : fl) : Prop :=
  match a with Num q => q == 0 | _ => False end.

(** The value is a finite number equal to [q]. *)
Definition finite_eq (a : fl) (q : Q) : Prop :=
  match a with Num x => x == q | _ => False end.

(** [abs(a)] *)
Definition fabs (a : fl) : fl :=
  match a with
  | NaN => NaN
  | PInf | NInf => PInf
  | Num q => Num (Qabs q)
  end.

(** [a <= b]; false when one side is NaN. *)
Definition fle (a b : fl) : bool := flt a b || feq a b.

(** The magnitudes on which the exact model stands for double-precision
    arithmetic: zero, or an absolute value between 2^-250 and 2^250.
    Doubles reach from 2^-1022 to just below 2^1024, so a sum of such
    numbers, and a product or a quotient of two of them or of two such
    sums, is a double again, rounded but neither zero nor infinite. *)
Definition float_safeb (q : Q) : bool :=
  Qzerob q
  || (Qle_bool (Qpower 2 (-250)) (Qabs q) && Qle_bool (Qabs q) (Qpower 2 250)).

End Float.
Import Float.

(** ** Python dictionaries with string keys, as association lists *)

Definition dict (V : Type) : Type := list (string * V).

Fixpoint dict_find {V} (key : string) (d : dict V) : option V :=
  match d with
  | [] => None
  | (k, v) :: rest => if String.eqb k key then Some v else dict_find key rest
  end.

(** [d.get(key, default)] *)
Definition dict_get {V} (key : string) (default : V) (d : dict V) : V :=
  match dict_find key d with
  | Some v => v
  | None => default
  end.

(** [key in d] *)
Definition dict_mem {V} (key : string) (d : dict V) : bool :=
  match dict_find key d with
  | Some _ => true
  | None => false
  end.

(** [sum(...)] over numbers *)
Definition Qsum (l : list Q) : Q := fold_right Qplus 0 l.

(** [len(...)] as a number *)
Definition Qlen (l : list Q) : Q := inject_Z (Z.of_nat (length l)).

(** ** src/utils/config.py *)

Module Config.
Definition DEFAULT_CAPITAL : Q := 100000.
Definition DEFAULT_COMMISSION : Q := 5 # 10000.
Definition RISK_FREE_RATE : Q := 65 # 1000.
Definition DAYS_PER_YEAR : Q := 252.
End Config.

(** ** pandas Series operations used by the analyzer

    A Series of finite numbers is a [list Q]; the results of element-wise
    division can be NaN or infinite, so derived Series are [list fl].
    The reductions skip NaN, as pandas does by default. *)

Module Pandas.

(** [s.pct_change()]: [s[t] / s[t-1] - 1], NaN at the first position. *)
Fixpoint pct_change_from (prev : Q) (s : list Q) : list fl :=
  match s with
  | [] => []
  | x :: rest => fsub (fdiv (Num x) (Num prev)) (Num 1) :: pct_change_from x rest
  end.

Definition pct_change (s : list Q) : list fl :=
  match s with
  | [] => []
  | x :: rest => NaN :: pct_change_from x rest
  end.

(** [s.dropna()] *)
Definition dropna (s : list fl) : list fl :=
  filter (fun v => negb (is_nan v)) s.

Definition fsum (s : list fl) : fl := fold_right fadd (Num 0) s.

Definition count (s : list fl) : Q := inject_Z (Z.of_nat (length s)).

(** [s.mean()] *)
Definition mean (s : list fl) : fl :=
  let v := dropna s in
  match v with
  | [] => NaN
  | _ => fdiv (fsum v) (Num (count v))
  end.

(** [s.min()] and [s.max()] *)
Definition fmin (a b : fl) : fl := if flt b a then b else a.
Definition fmax (a b : fl) : fl := if flt a b then b else a.

Definition series_min (s : list fl) : fl :=
  match dropna s with
  | [] => NaN
  | x :: rest => fold_left fmin rest x
  end.

Definition series_max (s : list fl) : fl :=
  match dropna s with
  | [] => NaN
  | x :: rest => fold_left fmax rest x
  end.

(** [s.cumprod()] on a Series of finite numbers, as long as the running
    products stay doubles ([float_safeb]): a float product beyond the
    double range is an infinity, which a list of rationals does not
    hold. *)
Fixpoint cumprod_from (acc : Q) (s : list Q) : list Q :=
  match s with
  | [] => []
  | x :: rest => (acc * x) :: cumprod_from (acc * x) rest
  end.

Definition cumprod (s : list Q) : list Q :=
  match s with
  | [] => []
  | x :: rest => x :: cumprod_from x rest
  end.

(** [s.expanding().max()]: the running maximum. *)
Fixpoint expanding_max_from (m : Q) (s : list Q) : list Q :=
  match s with
  | [] => []
  | x :: rest => Qmax m x :: expanding_max_from (Qmax m x) rest
  end.

Definition expanding_max (s : list Q) : list Q :=
  match s with
  | [] => []
  | x :: rest => x :: expanding_max_from x rest
  end.

(** Element-wise [(a - b) / b] of two aligned Series. *)
Fixpoint relative_gap (a b : list Q) : list fl :=
  match a, b with
  | x :: a', y :: b' => fdiv (Num (x - y)) (Num y) :: relative_gap a' b'
  | _, _ => []
  end.

(** The first value of the Series, when there is one, is positive. *)
Definition starts_positive (s : list Q) : Prop :=
  match s with
  | [] => True
  | x :: _ => 0 < x
  end.

Section Sqrt.

(** The square root of a non-negative rational is not rational in
    general, so [np.sqrt] on finite non-negative numbers is a parameter
    of the model. *)
Variable sqrtQ : Q -> Q.

Definition fsqrt (a : fl) : fl :=
  match a with
  | NaN | NInf => NaN
  | PInf => PInf
  | Num q => if Qltb q 0 then NaN else Num (sqrtQ q)
  end.

(** [s.std()]: sample standard deviation (ddof = 1); NaN when fewer
    than two values are left after dropping NaN. *)
Definition std (s : list fl) : fl :=
  let v := dropna s in
  if (length v <=? 1)%nat then NaN
  else
    let m := mean v in
    let sq := map (fun x => fmul (fsub x m) (fsub x m)) v in
    fsqrt (fdiv (fsum sq) (Num (count v - 1))).

End Sqrt.




(** Element-wise [a < b] of two aligned Series. *)
Fixpoint series_lt (a b : list Q) : list bool :=
  match a, b with
  | x :: a', y :: b' => Qltb x y :: series_lt a' b'
  | _, _ => []
  end.

End Pandas.

(** ** numpy power with a real result

    [x ** y] is the one operation of the analyzer that leaves the rationals
    for most arguments; its value is a real number (or NaN, or an infinity). *)

Module RealFloat.

Inductive rl : Type :=
| RNaN
| RPInf
| RNInf
| RNum (r : R).

(** [f] is increasing and affine in every use below, so it keeps NaN and
    the infinities. *)
Definition rl_lift (f : R -> R) (v : rl) : rl :=
  match v with
  | RNum r => RNum (f r)
  | special => special
  end.

(** The exponent is a whole number. *)
Definition Qis_integer (y : Q) : bool := (Qden (Qred y) =? 1)%positive.

(** [np.float64(x) ** y] *)
Definition np_pow (x y : Q) : rl :=
  if Qzerob y then RNum 1%R
  else if Qltb 0 x then RNum (Rpower (Q2R x) (Q2R y))
  else if Qzerob x then (if Qltb 0 y then RNum 0%R else RPInf)
  else if Qis_integer y then RNum (Q2R (Qpower x (Qnum (Qred y))))
  else RNaN.

(** [a / b] for a real-valued [a] and a rational-valued [b], with the
    same special cases as [fdiv]. *)
Definition rl_div_fl (a : rl) (b : fl) : rl :=
  match a, b with
  | RNaN, _ | _, NaN => RNaN
  | (RPInf | RNInf), (PInf | NInf) => RNaN
  | RPInf, Num q => if Qltb q 0 then RNInf else RPInf
  | RNInf, Num q => if Qltb q 0 then RPInf else RNInf
  | RNum _, (PInf | NInf) => RNum 0%R
  | RNum r, Num q =>
      if Qzerob q then
        (if Req_dec_T r 0 then RNaN
         else if Rlt_dec 0 r then RPInf else RNInf)
      else RNum (r / Q2R q)%R
  end.

End RealFloat.
Import RealFloat.

(** ** src/analytics/performance_analyzer.py *)

Module PerformanceAnalyzer.
Import Config Pandas.

(** A trade is a dictionary; the analyzer only reads its ['pnl'] entry. *)
Definition trade : Type := dict Q.

Record analyzer : Type := mkAnalyzer {
  returns : list Q;
  trades : list trade;
  risk_free_rate : Q
}.

(** [self.daily_returns = returns] *)
Definition daily_returns (self : analyzer) : list Q := returns self.

Definition pnl (t : trade) : Q := dict_get "pnl" 0 t.

Definition calculate_total_return (self : analyzer) : Q :=
  match returns self with
  | [] => 0
  | _ => (last (returns self) 0 - 1) * 100
  end.

Definition n_years (self : analyzer) : Q :=
  inject_Z (Z.of_nat (length (returns self))) / DAYS_PER_YEAR.

Definition calculate_annual_return (self : analyzer) : rl :=
  match returns self with
  | [] => RNum 0%R
  | _ =>
      let total_return := last (returns self) 0 - 1 in
      if Qle_bool (n_years self) 0 then RNum 0%R
      else
        rl_lift (fun power => ((power - 1) * 100)%R)
                (np_pow (1 + total_return) (1 / n_years self))
  end.

(** The annual return as the specification words it, to compare with
    [calculate_annual_return]: "with n_years = (N-1)/trading_days_per_year;
    if n_years <= 0 -> 0; else ((1+total_return/100)^(1/n_years) - 1) x 100". *)
Definition spec_annual_return (self : analyzer) : rl :=
  let N := inject_Z (Z.of_nat (length (returns self))) in
  let n_years := (N - 1) / DAYS_PER_YEAR in
  if Qle_bool n_years 0 then RNum 0%R
  else
    rl_lift (fun power => ((power - 1) * 100)%R)
            (np_pow (1 + calculate_total_return self / 100) (1 / n_years)).

Definition calculate_max_drawdown (self : analyzer) : fl :=
  if (length (returns self) <? 2)%nat then Num 0
  else
    let cumulative := cumprod (returns self) in
    let running_max := expanding_max cumulative in
    let drawdown := relative_gap cumulative running_max in
    fmul (series_min drawdown) (Num 100).

Definition calculate_win_rate (self : analyzer) : Q :=
  match trades self with
  | [] => 0
  | _ =>
      let winning := length (filter (fun t => Qltb 0 (pnl t)) (trades self)) in
      (inject_Z (Z.of_nat winning)
         / inject_Z (Z.of_nat (length (trades self)))) * 100
  end.

(** [gross_profit] and [gross_loss] of [calculate_profit_factor]: sums of
    finite pnl values, exact as long as the float sums do not overflow
    ([float_safeb] pnl values). *)
Definition gross_profit (ts : list trade) : Q :=
  Qsum (map pnl (filter (fun t => Qltb 0 (pnl t)) ts)).

Definition gross_loss (ts : list trade) : Q :=
  Qabs (Qsum (map pnl (filter (fun t => Qltb (pnl t) 0) ts))).

Definition calculate_profit_factor (self : analyzer) : fl :=
  match trades self with
  | [] => Num 0
  | _ =>
      if Qzerob (gross_loss (trades self)) then
        (if Qzerob (gross_profit (trades self)) then Num 0 else PInf)
      else Num (gross_profit (trades self) / gross_loss (trades self))
  end.

Definition calculate_calmar_ratio (self : analyzer) : rl :=
  let annual_return :=
    rl_lift (fun r => (r / 100)%R) (calculate_annual_return self) in
  let max_dd := fdiv (calculate_max_drawdown self) (Num 100) in
  if feq max_dd (Num 0) then RNum 0%R
  else rl_div_fl annual_return (fabs max_dd).

(** The loop of [calculate_max_drawdown_duration]: [current_duration] and
    [drawdown_duration] are the two accumulators. *)
Fixpoint longest_run (in_drawdown : list bool)
         (current_duration drawdown_duration : Z) : Z :=
  match in_drawdown with
  | [] => drawdown_duration
  | is_dd :: rest =>
      if is_dd
      then longest_run rest (current_duration + 1)
                       (Z.max drawdown_duration (current_duration + 1))
      else longest_run rest 0 drawdown_duration
  end.

Definition calculate_max_drawdown_duration (self : analyzer) : Z :=
  if (length (returns self) <? 2)%nat then 0%Z
  else
    let cumulative := cumprod (returns self) in
    let running_max := expanding_max cumulative in
    let in_drawdown := series_lt cumulative running_max in
    longest_run in_drawdown 0 0.

Definition calculate_recovery_factor (self : analyzer) : fl :=
  let total_return := calculate_total_return self / 100 in
  let max_dd := fdiv (calculate_max_drawdown self) (Num 100) in
  if feq max_dd (Num 0) then Num 0
  else fdiv (Num total_return) (fabs max_dd).

Definition calculate_best_day (self : analyzer) : fl :=
  if (length (daily_returns self) <? 2)%nat then Num 0
  else
    let daily_pct := dropna (pct_change (daily_returns self)) in
    if (0 <? length daily_pct)%nat
    then fmul (series_max daily_pct) (Num 100)
    else Num 0.

Definition calculate_worst_day (self : analyzer) : fl :=
  if (length (daily_returns self) <? 2)%nat then Num 0
  else
    let daily_pct := dropna (pct_change (daily_returns self)) in
    if (0 <? length daily_pct)%nat
    then fmul (series_min daily_pct) (Num 100)
    else Num 0.

(** The dictionary returned by [calculate_all_metrics], one field per
    key. *)
Record metrics : Type := mkMetrics {
  m_total_return : Q;
  m_annual_return : rl;
  m_sharpe_ratio : fl;
  m_sortino_ratio : fl;
  m_calmar_ratio : rl;
  m_max_drawdown : fl;
  m_drawdown_duration : Z;
  m_win_rate : Q;
  m_profit_factor : fl;
  m_recovery_factor : fl;
  m_volatility : fl;
  m_best_day : fl;
  m_worst_day : fl
}.

Section Sqrt.
Variable sqrtQ : Q -> Q.

(** [np.sqrt(DAYS_PER_YEAR)] *)
Definition sqrt_days : fl := fsqrt sqrtQ (Num DAYS_PER_YEAR).

Definition excess_return (self : analyzer) (daily : list fl) : fl :=
  fsub (mean daily) (Num (risk_free_rate self / DAYS_PER_YEAR)).

Definition calculate_sharpe_ratio (self : analyzer) : fl :=
  if (length (daily_returns self) <? 2)%nat then Num 0
  else
    let daily := dropna (pct_change (daily_returns self)) in
    if (length daily =? 0)%nat || feq (std sqrtQ daily) (Num 0) then Num 0
    else
      fmul (fdiv (excess_return self daily) (std sqrtQ daily)) sqrt_days.

Definition calculate_sortino_ratio (self : analyzer) : fl :=
  if (length (daily_returns self) <? 2)%nat then Num 0
  else
    let daily := dropna (pct_change (daily_returns self)) in
    if (length daily =? 0)%nat then Num 0
    else
      let downside_returns := filter (fun r => flt r (Num 0)) daily in
      if (length downside_returns =? 0)%nat
         || feq (std sqrtQ downside_returns) (Num 0)
      then Num 0
      else
        fmul (fdiv (excess_return self daily) (std sqrtQ downside_returns))
             sqrt_days.

Definition calculate_volatility (self : analyzer) : fl :=
  if (length (daily_returns self) <? 2)%nat then Num 0
  else
    let daily := dropna (pct_change (daily_returns self)) in
    if (length daily =? 0)%nat then Num 0
    else fmul (fmul (std sqrtQ daily) sqrt_days) (Num 100).

Definition calculate_all_metrics (self : analyzer) : metrics :=
  mkMetrics
    (calculate_total_return self)
    (calculate_annual_return self)
    (calculate_sharpe_ratio self)
    (calculate_sortino_ratio self)
    (calculate_calmar_ratio self)
    (calculate_max_drawdown self)
    (calculate_max_drawdown_duration self)
    (calculate_win_rate self)
    (calculate_profit_factor self)
    (calculate_recovery_factor self)
    (calculate_volatility self)
    (calculate_best_day self)
    (calculate_worst_day self).

End Sqrt.

End PerformanceAnalyzer.

(** ** src/backtesting/backtest_engine.py

    backtrader's [Cerebro] is an external library.  The engine's use of it
    is modelled by the sequence of calls made on it; [cerebro.run()], the
    simulation itself, is a parameter. *)

Module BacktestEngine.

Inductive exn : Type := ValueError | IndexError.

Inductive outcome (A : Type) : Type :=
| Raise (e : exn)
| Return (a : A).
Arguments Raise {A} e.
Arguments Return {A} a.

(** A DataFrame, as far as the engine looks at it: column names and the
    index (bar timestamps). *)
Record DataFrame : Type := mkDataFrame {
  columns : list string;
  index : list Z
}.

Inductive strategy_class : Type :=
| MAcrossoverStrategy
| RSIStrategy
| BollingerBandsStrategy
| MomentumStrategy.

Record data_feed : Type := mkFeed {
  dataname : DataFrame;
  fromdate : Z;
  todate : Z
}.

Inductive cerebro_call : Type :=
| SetCash (cash : Q)
| SetCommission (commission : Q)
| AddData (feed : data_feed)
| AddStrategy (cls : strategy_class) (params : dict Q)
| AddAnalyzer (name : string)
| Run.

(** Computations that call the cerebro object and may raise. *)
Definition M (A : Type) : Type :=
  list cerebro_call -> outcome A * list cerebro_call.

Definition ret {A} (a : A) : M A := fun calls => (Return a, calls).
Definition raise {A} (e : exn) : M A := fun calls => (Raise e, calls).
Definition bind {A B} (m : M A) (k : A -> M B) : M B :=
  fun calls =>
    match m calls with
    | (Raise e, calls') => (Raise e, calls')
    | (Return a, calls') => k a calls'
    end.
Definition call (c : cerebro_call) : M unit :=
  fun calls => (Return tt, calls ++ [c]).

Notation "x <- m ;; k" := (bind m (fun x => k))
  (at level 61, m at next level, right associativity).
Notation "m ;;; k" := (bind m (fun _ => k))
  (at level 61, right associativity).

Record engine : Type := mkEngine {
  initial_capital : Q;
  commission : Q
}.

(** What the engine reads from the finished strategy: the TradeAnalyzer
    dictionary and the broker value. *)
Record strat : Type := mkStrat {
  trades_analysis : dict (dict Z);
  broker_value : Q
}.

Record results : Type := mkResults {
  r_initial_capital : Q;
  final_value : Q;
  total_profit : Q;
  total_trades : Z;
  winning_trades : Z;
  losing_trades : Z;
  win_rate : Q;
  profit_factor : fl
}.

Definition required_cols : list string :=
  ["Open"; "High"; "Low"; "Close"; "Volume"]%string.

Definition has_column (data : DataFrame) (col : string) : bool :=
  existsb (String.eqb col) (columns data).

Definition _create_data_feed (data : DataFrame) : M data_feed :=
  if negb (forallb (has_column data) required_cols) then raise ValueError
  else
    match index data with
    | [] => raise IndexError
    | first :: _ => ret (mkFeed data first (last (index data) first))
    end.

Definition _add_analyzers : M unit :=
  call (AddAnalyzer "sharpe_ratio") ;;;
  call (AddAnalyzer "returns") ;;;
  call (AddAnalyzer "drawdown") ;;;
  call (AddAnalyzer "trades") ;;;
  call (AddAnalyzer "sqn") ;;;
  call (AddAnalyzer "vwr").

(** The profit-factor block of [_extract_results]. *)
Definition extract_profit_factor (trades : dict (dict Z)) : fl :=
  if dict_mem "won" trades && dict_mem "lost" trades then
    let won_sum := dict_get "total" 0%Z (dict_get "won" [] trades) in
    let lost_sum := Z.abs (dict_get "total" 0%Z (dict_get "lost" [] trades)) in
    if (0 <? lost_sum)%Z then Num (inject_Z won_sum / inject_Z lost_sum)
    else if (0 <? won_sum)%Z then PInf
    else Num 0
  else Num 0.

(** [_extract_results], trade statistics and portfolio value (the
    drawdown, returns and Sharpe entries are copied from backtrader's
    analyzers and are left out). *)
Definition _extract_results (self : engine) (st : strat) : results :=
  let trades := trades_analysis st in
  let total := dict_get "total" 0%Z (dict_get "total" [] trades) in
  let won := dict_get "total" 0%Z (dict_get "won" [] trades) in
  let lost := dict_get "total" 0%Z (dict_get "lost" [] trades) in
  mkResults
    (initial_capital self)
    (broker_value st)
    (broker_value st - initial_capital self)
    total won lost
    (if (0 <? total)%Z then inject_Z won / inject_Z total * 100 else 0)
    (extract_profit_factor trades).

Section Run.

(** [cerebro.run()]: the simulation, given the calls made so far. *)
Variable cerebro_run : list cerebro_call -> outcome strat.

Definition run_cerebro : M strat :=
  fun calls => (cerebro_run calls, calls ++ [Run]).

(** [run] starts from a fresh [bt.Cerebro()], on which no call has been
    made; it gives the result (or the exception raised) and the calls
    made on the cerebro object. *)
Definition run (self : engine) (cls : strategy_class) (data : DataFrame)
           (strategy_params : option (dict Q))
  : outcome results * list cerebro_call :=
  (call (SetCash (initial_capital self)) ;;;
   call (SetCommission (commission self)) ;;;
   data_feed <- _create_data_feed data ;;
   call (AddData data_feed) ;;;
   call (AddStrategy cls (match strategy_params with
                          | None => []
                          | Some params => params
                          end)) ;;;
   _add_analyzers ;;;
   st <- run_cerebro ;;
   ret (_extract_results self st)) [].

End Run.

(** The call is [cerebro.run()]. *)
Definition is_run (c : cerebro_call) : bool :=
  match c with
  | Run => true
  | _ => false
  end.

End BacktestEngine.

(** ** src/backtesting/base_strategy.py

    The strategy object together with the two backtrader objects it talks
    to: [self.position] (its size; a position is truthy when the size is
    not zero) and the broker (the orders submitted so far, oldest first). *)

Module BaseStrategy.

Inductive side : Type := Buy | Sell.

Inductive order_status : Type :=
| Created | Submitted | Accepted | Partial | Completed
| Canceled | Expired | Margin | Rejected.

Record order : Type := mkOrder {
  status : order_status;
  order_side : side;
  executed_price : Q;
  executed_comm : Q
}.

Definition isbuy (o : order) : bool :=
  match order_side o with Buy => true | Sell => false end.
Definition issell (o : order) : bool :=
  match order_side o with Sell => true | Buy => false end.

Record strategy : Type := mkStrategy {
  self_order : option order;
  buy_price : option Q;
  buy_comm : option Q;
  trade_count : Z;
  winning_trades : Z;
  losing_trades : Z;
  total_profit : Q;
  position : Q;
  broker : list order
}.

(** [__init__] with a flat position and a broker without orders. *)
Definition init : strategy :=
  mkStrategy None None None 0 0 0 0 0 [].

Definition set_order (o : option order) (s : strategy) : strategy :=
  mkStrategy o (buy_price s) (buy_comm s) (trade_count s)
             (winning_trades s) (losing_trades s) (total_profit s)
             (position s) (broker s).

Definition set_buy (price comm : Q) (s : strategy) : strategy :=
  mkStrategy (self_order s) (Some price) (Some comm) (trade_count s)
             (winning_trades s) (losing_trades s) (total_profit s)
             (position s) (broker s).

Definition set_trade_count (n : Z) (s : strategy) : strategy :=
  mkStrategy (self_order s) (buy_price s) (buy_comm s) n
             (winning_trades s) (losing_trades s) (total_profit s)
             (position s) (broker s).

Definition set_tally (won lost : Z) (profit : Q) (s : strategy) : strategy :=
  mkStrategy (self_order s) (buy_price s) (buy_comm s) (trade_count s)
             won lost profit (position s) (broker s).

Definition submit (o : order) (s : strategy) : strategy :=
  mkStrategy (self_order s) (buy_price s) (buy_comm s) (trade_count s)
             (winning_trades s) (losing_trades s) (total_profit s)
             (position s) (broker s ++ [o]).

(** Python truthiness of [self.buy_price]: set and not zero. *)
Definition truthy (p : option Q) : bool :=
  match p with
  | Some q => negb (Qzerob q)
  | None => false
  end.

(** [bool(self.position)] *)
Definition in_position (s : strategy) : bool := negb (Qzerob (position s)).

Definition notify_order (o : order) (s : strategy) : strategy :=
  match status o with
  | Submitted | Accepted => s
  | Completed =>
      let s1 :=
        if isbuy o then set_buy (executed_price o) (executed_comm o) s
        else if issell o then
          let profit :=
            if truthy (buy_price s)
            then executed_price o - match buy_price s with
                                    | Some p => p
                                    | None => 0
                                    end
            else 0 in
          if Qltb 0 profit
          then set_tally (winning_trades s + 1) (losing_trades s)
                         (total_profit s + profit) s
          else set_tally (winning_trades s) (losing_trades s + 1)
                         (total_profit s + profit) s
        else s in
      set_order None (set_trade_count (trade_count s1 + 1) s1)
  | Canceled | Margin | Rejected => set_order None s
  | Created | Partial | Expired => s
  end.

(** [self.buy()] and [self.sell()]: backtrader creates a market order,
    submits it to the broker and returns it. *)
Definition new_order (sd : side) : order := mkOrder Submitted sd 0 0.

Definition buy (s : strategy) : order * strategy :=
  (new_order Buy, submit (new_order Buy) s).
Definition sell (s : strategy) : order * strategy :=
  (new_order Sell, submit (new_order Sell) s).

Definition buy_signal (s : strategy) : strategy :=
  if negb (in_position s) then
    let (o, s1) := buy s in set_order (Some o) s1
  else s.

Definition sell_signal (s : strategy) : strategy :=
  if in_position s then
    let (o, s1) := sell s in set_order (Some o) s1
  else s.

Definition get_position_size (s : strategy) : Q :=
  if in_position s then position s else 0.

(** The names declared in the class attribute [params]. *)
Definition param_names : list string :=
  ["position_size"; "risk_per_trade"; "stop_loss_pct"]%string.

(** A signal of either kind. *)
Definition signal (sd : side) (s : strategy) : strategy :=
  match sd with
  | Buy => buy_signal s
  | Sell => sell_signal s
  end.

(** Signals requested one after the other, with no fill in between. *)
Definition signals (sds : list side) (s : strategy) : strategy :=
  fold_left (fun st sd => signal sd st) sds s.

(** Notifications delivered one after the other. *)
Definition notify_orders (os : list order) (s : strategy) : strategy :=
  fold_left (fun st o => notify_order o st) os s.

(** The orders of a list that are completed, and the completed orders of
    one side. *)
Definition completed (os : list order) : list order :=
  filter (fun o => match status o with Completed => true | _ => false end) os.

Definition completed_buys (os : list order) : list order :=
  filter isbuy (completed os).

Definition completed_sells (os : list order) : list order :=
  filter issell (completed os).

End BaseStrategy.

(** ** Indicators

    The indicator classes ([bt.indicators.SimpleMovingAverage], [CrossOver],
    [RSI], [BollingerBands], [RateOfChange]) are backtrader's.  The
    strategies below take the indicator readings of the current bar as
    arguments; the two indicators the moving-average run needs are modelled
    here. *)

Module Indicators.

(** The [n] closes ending at bar [t] (bars are numbered from 0). *)
Definition window (n t : nat) (closes : list Q) : list Q :=
  firstn n (skipn (t + 1 - n) closes).

(** Modelled from the spec: backtrader's SimpleMovingAverage is not part
    of the sources.  "Simple moving average (SMA, period n): mean of the
    last n closes; undefined for the first n-1 bars."  [None] is the
    not-ready value. *)
Definition sma (n : nat) (closes : list Q) (t : nat) : option Q :=
  if (n =? 0)%nat || (t + 1 <? n)%nat || (length closes <=? t)%nat then None
  else Some (Qsum (window n t closes) / inject_Z (Z.of_nat n)).

(** Modelled from the spec: backtrader's CrossOver is not part of the
    sources.  "fast SMA crosses above slow SMA (prev fast <= prev slow AND
    current fast > current slow)", and symmetrically for crossing below;
    the reading is 1, -1 or 0, and not ready until both averages have a
    previous and a current value. *)
Definition crossover (fast slow : nat) (closes : list Q) (t : nat)
  : option Q :=
  match t with
  | O => None
  | S t' =>
      match sma fast closes t', sma slow closes t',
            sma fast closes t, sma slow closes t with
      | Some prev_fast, Some prev_slow, Some cur_fast, Some cur_slow =>
          if Qle_bool prev_fast prev_slow && Qltb cur_slow cur_fast
          then Some 1
          else if Qle_bool prev_slow prev_fast && Qltb cur_fast cur_slow
          then Some (-1)
          else Some 0
      | _, _, _, _ => None
      end
  end.

End Indicators.

(** ** src/strategies

    [next] returns the new strategy state and the lines it logs; a logged
    line is kept by its kind ("BUY ..." or "SELL ..."). *)

Module Strategies.
Import BaseStrategy.

Definition step_result : Type := (strategy * list side)%type.

Module MAcrossoverStrategy.

Definition buy_condition (crossover : Q) : bool := Qltb 0 crossover.
Definition sell_condition (crossover : Q) : bool := Qltb crossover 0.

Definition next (crossover : Q) (s : strategy) : step_result :=
  if buy_condition crossover then (buy_signal s, [Buy])
  else if sell_condition crossover then (sell_signal s, [Sell])
  else (s, []).

(** [params] of the class, with the inherited ones. *)
Definition param_names : list string :=
  (["fast_ma"; "slow_ma"]%string ++ BaseStrategy.param_names)%list.

End MAcrossoverStrategy.

Module RSIStrategy.

Record params : Type := mkParams {
  rsi_period : Z;
  rsi_lower : Q;
  rsi_upper : Q
}.

Definition default_params : params := mkParams 14 30 70.

Definition buy_condition (p : params) (rsi : Q) (s : strategy) : bool :=
  Qltb rsi (rsi_lower p) && negb (in_position s).
Definition sell_condition (p : params) (rsi : Q) (s : strategy) : bool :=
  Qltb (rsi_upper p) rsi && in_position s.

Definition next (p : params) (rsi : Q) (s : strategy) : step_result :=
  if buy_condition p rsi s then (buy_signal s, [Buy])
  else if sell_condition p rsi s then (sell_signal s, [Sell])
  else (s, []).

(** [params] of the class, with the inherited ones. *)
Definition param_names : list string :=
  (["rsi_period"; "rsi_lower"; "rsi_upper"]%string ++ BaseStrategy.param_names)%list.

End RSIStrategy.

Module BollingerBandsStrategy.

Definition buy_condition (close bot : Q) (s : strategy) : bool :=
  Qle_bool close bot && negb (in_position s).
Definition sell_condition (close top : Q) (s : strategy) : bool :=
  Qle_bool top close && in_position s.

Definition next (close bot top : Q) (s : strategy) : step_result :=
  if buy_condition close bot s then (buy_signal s, [Buy])
  else if sell_condition close top s then (sell_signal s, [Sell])
  else (s, []).

(** [params] of the class, with the inherited ones. *)
Definition param_names : list string :=
  (["bb_period"; "bb_std"]%string ++ BaseStrategy.param_names)%list.

End BollingerBandsStrategy.

Module MomentumStrategy.

Record params : Type := mkParams {
  roc_period : Z;
  roc_threshold : Q
}.

Definition default_params : params := mkParams 10 (1 # 2).

Record momentum : Type := mkMomentum {
  base : strategy;
  last_roc : Q
}.

Definition buy_condition (p : params) (current_roc current_price current_sma : Q)
           (s : strategy) : bool :=
  Qltb (roc_threshold p) current_roc
  && Qltb current_sma current_price
  && negb (in_position s).

Definition sell_condition (p : params) (current_roc current_price current_sma : Q)
           (s : strategy) : bool :=
  (Qltb current_roc (- roc_threshold p) || Qltb current_price current_sma)
  && in_position s.

Definition next (p : params) (current_roc current_price current_sma : Q)
           (m : momentum) : momentum * list side :=
  let s := base m in
  let (s1, out) :=
    if buy_condition p current_roc current_price current_sma s
    then (buy_signal s, [Buy])
    else if sell_condition p current_roc current_price current_sma s
    then (sell_signal s, [Sell])
    else (s, []) in
  (mkMomentum s1 current_roc, out).

(** [params] of the class, with the inherited ones. *)
Definition param_names : list string :=
  (["roc_period"; "roc_threshold"]%string ++ BaseStrategy.param_names)%list.

End MomentumStrategy.

(** The four variants, each with the readings of one bar. *)
Inductive bar : Type :=
| MA_bar (crossover : Q)
| RSI_bar (p : RSIStrategy.params) (rsi : Q)
| BB_bar (close bot top : Q)
| Momentum_bar (p : MomentumStrategy.params)
               (roc price sma last_roc : Q).

Definition buy_condition (b : bar) (s : strategy) : bool :=
  match b with
  | MA_bar c => MAcrossoverStrategy.buy_condition c
  | RSI_bar p rsi => RSIStrategy.buy_condition p rsi s
  | BB_bar close bot _ => BollingerBandsStrategy.buy_condition close bot s
  | Momentum_bar p roc price sma _ =>
      MomentumStrategy.buy_condition p roc price sma s
  end.

Definition sell_condition (b : bar) (s : strategy) : bool :=
  match b with
  | MA_bar c => MAcrossoverStrategy.sell_condition c
  | RSI_bar p rsi => RSIStrategy.sell_condition p rsi s
  | BB_bar close _ top => BollingerBandsStrategy.sell_condition close top s
  | Momentum_bar p roc price sma _ =>
      MomentumStrategy.sell_condition p roc price sma s
  end.

(** The bar belongs to the moving-average variant. *)
Definition is_ma (b : bar) : bool :=
  match b with
  | MA_bar _ => true
  | _ => false
  end.

(** [next()] of the variant's class on one bar. *)
Definition next (b : bar) (s : strategy) : step_result :=
  match b with
  | MA_bar c => MAcrossoverStrategy.next c s
  | RSI_bar p rsi => RSIStrategy.next p rsi s
  | BB_bar close bot top => BollingerBandsStrategy.next close bot top s
  | Momentum_bar p roc price sma last =>
      let (m, out) :=
        MomentumStrategy.next p roc price sma
                              (MomentumStrategy.mkMomentum s last) in
      (MomentumStrategy.base m, out)
  end.

(** A run of the moving-average strategy over a price series.  Between
    two bars the broker fills orders and notifies the strategy; that part
    is backtrader's and is the parameter [settle].  [next] is not called
    while the crossover is not ready. *)
Section Backtest.
Variable settle : strategy -> strategy.

Fixpoint run_bars (readings : list (option Q)) (s : strategy)
  : list side :=
  match readings with
  | [] => []
  | reading :: rest =>
      let s1 := settle s in
      match reading with
      | None => run_bars rest s1
      | Some c =>
          let (s2, out) := MAcrossoverStrategy.next c s1 in
          out ++ run_bars rest s2
      end
  end.

Definition ma_signals (fast slow : nat) (closes : list Q) (s : strategy)
  : list side :=
  run_bars (map (Indicators.crossover fast slow closes)
                (seq 0 (length closes))) s.

End Backtest.

Definition count_side (sd : side) (l : list side) : nat :=
  length (filter (fun x => match x, sd with
                           | Buy, Buy | Sell, Sell => true
                           | _, _ => false
                           end) l).

End Strategies.

(** ** src/cli.py and src/utils/visualization.py *)

Module Cli.
Import Pandas.

(** The equity Series built for plotting in [backtest]:
    [[capital * (1 + total_return/100)] * len(dates)]. *)
Definition equity_values (capital total_return : Q) (dates : list Z)
  : list Q :=
  repeat (capital * (1 + total_return / 100)) (length dates).

(** The drawdown Series computed in [ResultsVisualizer.plot_drawdown]. *)
Definition plot_drawdown (equity : list Q) : list fl :=
  let cumulative := equity in
  let running_max := expanding_max cumulative in
  map (fun d => fmul d (Num 100)) (relative_gap cumulative running_max).

(** The table [STRATEGIES]. *)
Definition STRATEGIES : dict BacktestEngine.strategy_class :=
  [("ma_crossover", BacktestEngine.MAcrossoverStrategy);
   ("rsi", BacktestEngine.RSIStrategy);
   ("bollinger_bands", BacktestEngine.BollingerBandsStrategy);
   ("momentum", BacktestEngine.MomentumStrategy)]%string.

(** The parameter names each class of the table declares. *)
Definition param_names (cls : BacktestEngine.strategy_class) : list string :=
  match cls with
  | BacktestEngine.MAcrossoverStrategy =>
      Strategies.MAcrossoverStrategy.param_names
  | BacktestEngine.RSIStrategy => Strategies.RSIStrategy.param_names
  | BacktestEngine.BollingerBandsStrategy =>
      Strategies.BollingerBandsStrategy.param_names
  | BacktestEngine.MomentumStrategy => Strategies.MomentumStrategy.param_names
  end.

(** The [strategy_params] dictionary built in [backtest] from the command
    line options. *)
Definition strategy_params (strategy : string)
           (fast_ma slow_ma rsi_period roc_period : Z) : dict Q :=
  if String.eqb strategy "ma_crossover"
  then [("fast_ma"%string, inject_Z fast_ma); ("slow_ma"%string, inject_Z slow_ma)]
  else if String.eqb strategy "rsi"
  then [("rsi_period"%string, inject_Z rsi_period)]
  else if String.eqb strategy "momentum"
  then [("roc_period"%string, inject_Z roc_period)]
  else [].

End Cli.

(** ** src/utils/visualization.py and src/utils/enhanced_visualization.py

    The Series the plotting functions compute before drawing. *)

Module Visualization.
Import Pandas BacktestEngine.



Inductive color : Type := green | red | orange.

(** [plot_strategy_analysis] reads [trade.get('pnl', 0)]; the value is any
    float, NaN included. *)
Definition plotted_pnl (t : dict fl) : fl := dict_get "pnl" (Num 0) t.

(** [plot_strategy_analysis]: colour of the exit marker
    (['red' if pnl < 0 else 'orange']) and of the shaded region of a trade
    (['green' if pnl >= 0 else 'red']), and of the bar of a daily return. *)
Definition exit_color (t : dict fl) : color :=
  if flt (plotted_pnl t) (Num 0) then red else orange.

Definition region_color (t : dict fl) : color :=
  if fle (Num 0) (plotted_pnl t) then green else red.

Definition bar_colors (closes : list Q) : list color :=
  map (fun r => if flt (Num 0) r then green else red)
      (map (fun r => fmul r (Num 100)) (pct_change closes)).

End Visualization.

(** ** Concrete inputs used in the properties below *)

Module Samples.
Import PerformanceAnalyzer.

(** One trade, closed with a loss of 5. *)
Definition one_losing_trade : analyzer :=
  mkAnalyzer [] [[("pnl"%string, - (5))]] Config.RISK_FREE_RATE.

(** Three trades: a gain of 10, a loss of 5, and one without a pnl. *)
Definition won_and_lost : analyzer :=
  mkAnalyzer [] [[("pnl"%string, 10)]; [("pnl"%string, - (5))];
                 [("size"%string, 1)]] Config.RISK_FREE_RATE.

(** Returns Series 1.0, 1.1, 0.9. *)
Definition rise_then_dip : analyzer :=
  mkAnalyzer [1; 11 # 10; 9 # 10] [] Config.RISK_FREE_RATE.

(** Returns Series -1, 2. *)
Definition negative_start : analyzer :=
  mkAnalyzer [- (1); 2] [] Config.RISK_FREE_RATE.

(** Returns Series with the single point 2. *)
Definition one_point : analyzer :=
  mkAnalyzer [2] [] Config.RISK_FREE_RATE.

(** Returns Series 1.0, 1.1: one daily return. *)
Definition two_points : analyzer :=
  mkAnalyzer [1; 11 # 10] [] Config.RISK_FREE_RATE.

(** Returns Series 1.0, 0.9, 0.99: daily returns -0.1 and 0.1. *)
Definition one_down_day : analyzer :=
  mkAnalyzer [1; 9 # 10; 99 # 100] [] Config.RISK_FREE_RATE.




(** A strategy holding 10 units bought at 100. *)
Definition long_position : BaseStrategy.strategy :=
  BaseStrategy.mkStrategy None (Some 100) (Some 0) 1 0 0 0 10 [].

Definition rising_closes : list Q := [1; 2; 3; 4; 5; 6].

(** A broker that does nothing between two bars. *)
Definition idle_broker (s : BaseStrategy.strategy) : BaseStrategy.strategy := s.

(** A stand-in for [np.sqrt] where a concrete function is needed: the
    integer square root of the integer part. *)
Definition floor_sqrt (q : Q) : Q :=
  inject_Z (Z.sqrt (Qnum q / Z.pos (Qden q))).

(** A DataFrame with the five columns and no row. *)
Definition no_bars : BacktestEngine.DataFrame :=
  BacktestEngine.mkDataFrame
    ["Open"; "High"; "Low"; "Close"; "Volume"]%string [].

End Samples.

(** * Properties *)

(** ** Comparisons on rationals *)

Lemma Qltb_lt (x y : Q) : Qltb x y = true <-> x < y.
Proof.
  unfold Qltb. rewrite negb_true_iff.
  split; intro H.
  - apply Qnot_le_lt. intro Hle. apply Qle_bool_iff in Hle. congruence.
  - destruct (Qle_bool y x) eqn:E; [|reflexivity].
    apply Qle_bool_iff in E. lra.
Qed.

Lemma Qltb_ge (x y : Q) : Qltb x y = false <-> y <= x.
Proof.
  unfold Qltb. rewrite negb_false_iff. apply Qle_bool_iff.
Qed.

Lemma Qzerob_eq (x : Q) : Qzerob x = true <-> x == 0.
Proof. unfold Qzerob. apply Qeq_bool_iff. Qed.

Lemma Qzerob_neq (x : Q) : Qzerob x = false <-> ~ x == 0.
Proof.
  rewrite <- Qzerob_eq. destruct (Qzerob x); split; congruence.
Qed.

Ltac reflect_Q :=
  repeat match goal with
    | H : Qltb _ _ = true |- _ => apply Qltb_lt in H
    | H : Qltb _ _ = false |- _ => apply Qltb_ge in H
    | H : Qzerob _ = true |- _ => apply Qzerob_eq in H
    | H : Qzerob _ = false |- _ => apply Qzerob_neq in H
    | H : Qle_bool _ _ = true |- _ => apply Qle_bool_iff in H
    end.

Lemma Qdiv_zero_iff (a b : Q) : ~ b == 0 -> (a / b == 0 <-> a == 0).
Proof.
  intro Hb. split; intro H.
  - assert (E : a == a / b * b) by (field; exact Hb).
    rewrite E, H. ring.
  - rewrite H. unfold Qdiv. ring.
Qed.

(** ** Profit factor *)

Module ProfitFactorFacts.
Import PerformanceAnalyzer.

Lemma Qsum_positive (l : list Q) :
  Forall (fun x => 0 < x) l -> 0 <= Qsum l /\ (Qsum l == 0 -> l = []).
Proof.
  induction 1 as [|x l Hx Hl [IH1 IH2]]; simpl.
  - split; [lra | reflexivity].
  - split; [lra | intro; exfalso; lra].
Qed.

Lemma winners_positive (ts : list trade) :
  Forall (fun x => 0 < x) (map pnl (filter (fun t => Qltb 0 (pnl t)) ts)).
Proof.
  apply Forall_forall. intros x Hx.
  apply in_map_iff in Hx. destruct Hx as [t [<- Ht]].
  apply filter_In in Ht. destruct Ht as [_ Ht]. now apply Qltb_lt.
Qed.

Lemma gross_profit_nonneg (ts : list trade) : 0 <= gross_profit ts.
Proof. apply Qsum_positive, winners_positive. Qed.

Lemma gross_loss_nonneg (ts : list trade) : 0 <= gross_loss ts.
Proof. apply Qabs_nonneg. Qed.

End ProfitFactorFacts.

Section ProfitFactor.
Import PerformanceAnalyzer BacktestEngine ProfitFactorFacts.

(** C1 (as the code has it).  For trades whose pnl is 0 or of a magnitude
    between 2^-250 and 2^250, so that no sum overflows and the quotient
    neither overflows nor underflows, the profit factor of the analyzer is
    +infinity exactly when the gross loss is 0 and the gross profit is
    positive, and it is 0 exactly when the gross profit is 0, whatever the
    gross loss. *)
Theorem profit_factor_sentinels (self : analyzer) :
  forallb (fun t => float_safeb (pnl t)) (trades self) = true ->
  (calculate_profit_factor self = PInf
   <-> gross_loss (trades self) == 0 /\ 0 < gross_profit (trades self))
  /\ (is_zero (calculate_profit_factor self)
      <-> gross_profit (trades self) == 0).
Proof.
  intros _.
  destruct self as [rs ts rf]; simpl. unfold calculate_profit_factor; simpl.
  pose proof (gross_profit_nonneg ts) as Hgp.
  destruct ts as [|t ts'] eqn:Ets.
  - unfold gross_profit, gross_loss in *; simpl.
    intuition (try discriminate; try lra).
  - rewrite <- Ets in *. clear Ets.
    destruct (Qzerob (gross_loss ts)) eqn:Egl;
      destruct (Qzerob (gross_profit ts)) eqn:Egp; reflect_Q; simpl.
    + intuition (try discriminate; try lra).
    + intuition (try discriminate; try lra).
    + rewrite (Qdiv_zero_iff _ _ Egl).
      intuition (try discriminate; try lra).
    + rewrite (Qdiv_zero_iff _ _ Egl).
      intuition (try discriminate; try lra).
Qed.

Lemma profit_factor_sentinels_witness :
  (calculate_profit_factor Samples.won_and_lost = PInf
   <-> gross_loss (trades Samples.won_and_lost) == 0
       /\ 0 < gross_profit (trades Samples.won_and_lost))
  /\ (is_zero (calculate_profit_factor Samples.won_and_lost)
      <-> gross_profit (trades Samples.won_and_lost) == 0).
Proof.
  apply (profit_factor_sentinels Samples.won_and_lost).
  vm_compute. reflexivity.
Defined.

Let won_total (t : dict (dict Z)) : Z :=
  dict_get "total" 0%Z (dict_get "won" [] t).
Let lost_total (t : dict (dict Z)) : Z :=
  dict_get "total" 0%Z (dict_get "lost" [] t).

(** The engine computes its ratio from the TradeAnalyzer entries won.total
    and lost.total, the ones [_extract_results] also reports as the numbers
    of winning and losing trades: +infinity exactly when both entries
    exist, lost.total is 0 and won.total is positive; 0 when both exist and
    won.total is 0. *)
Lemma extract_profit_factor_cases (t : dict (dict Z)) :
  (extract_profit_factor t = PInf
   <-> dict_mem "won" t = true /\ dict_mem "lost" t = true
       /\ lost_total t = 0%Z /\ (0 < won_total t)%Z)
  /\ (dict_mem "won" t = true -> dict_mem "lost" t = true ->
      won_total t = 0%Z -> is_zero (extract_profit_factor t)).
Proof.
  unfold extract_profit_factor.
  fold (won_total t) (lost_total t).
  destruct (dict_mem "won" t) eqn:Ew; destruct (dict_mem "lost" t) eqn:El;
    simpl; try (split; [split; [discriminate | intros (? & ? & _); discriminate]
                       | intros; discriminate]).
  destruct (0 <? Z.abs (lost_total t))%Z eqn:E1.
  - apply Z.ltb_lt in E1. split.
    + split; [discriminate | intros (_ & _ & H & _); lia].
    + intros _ _ H. simpl. rewrite H. reflexivity.
  - apply Z.ltb_ge in E1.
    destruct (0 <? won_total t)%Z eqn:E2.
    + apply Z.ltb_lt in E2. split.
      * split; [intros _; repeat split; lia | reflexivity].
      * intros _ _ H. lia.
    + apply Z.ltb_ge in E2. split.
      * split; [discriminate | intros (_ & _ & _ & H); lia].
      * intros _ _ _. simpl. reflexivity.
Qed.

(** C1 as stated fails: one losing trade gives a profit factor of 0
    although the gross loss is 5. *)
Lemma profit_factor_zero_counterexample :
  ~ (is_zero (calculate_profit_factor Samples.one_losing_trade)
     <-> gross_profit (trades Samples.one_losing_trade) == 0
         /\ gross_loss (trades Samples.one_losing_trade) == 0).
Proof.
  intros [H _].
  assert (Hz : is_zero (calculate_profit_factor Samples.one_losing_trade))
    by reflexivity.
  destruct (H Hz) as [_ Hgl]. vm_compute in Hgl. discriminate.
Qed.

End ProfitFactor.

(** ** Maximum drawdown *)

Module DrawdownFacts.
Import Pandas.

Lemma Sorted_Qle_head (a b : Q) (l : list Q) :
  a == b -> Sorted Qle (a :: l) -> Sorted Qle (b :: l).
Proof.
  intros E H. apply Sorted_inv in H. destruct H as [Hs Hh].
  constructor; [assumption|].
  destruct Hh; constructor. lra.
Qed.

Lemma Sorted_Qle_cons (a x : Q) (l : list Q) :
  Sorted Qle (a :: x :: l) <-> a <= x /\ Sorted Qle (x :: l).
Proof.
  split.
  - intro H. apply Sorted_inv in H. destruct H as [Hs Hh].
    inversion Hh; subst. now split.
  - intros [Hle Hs]. constructor; [assumption | now constructor].
Qed.

(** The gap of a value below a positive running maximum. *)
Lemma gap_below (x m : Q) :
  0 < m -> x <= m ->
  fdiv (Num (x - m)) (Num m) = Num ((x - m) / m)
  /\ (x - m) / m <= 0
  /\ ((x - m) / m == 0 <-> x == m).
Proof.
  intros Hm Hx. simpl.
  assert (Hz : Qzerob m = false) by (apply Qzerob_neq; lra).
  rewrite Hz. split; [reflexivity|]. split.
  - apply Qle_shift_div_r; lra.
  - rewrite Qdiv_zero_iff by lra. split; intro; lra.
Qed.

(** Below a positive running maximum every gap is a finite number that
    is at most 0, and all gaps are 0 exactly when the Series never falls
    below its previous maximum. *)
Lemma gaps_from (s : list Q) :
  forall m, 0 < m ->
  exists ds : list Q,
    relative_gap s (expanding_max_from m s) = map Num ds
    /\ Forall (fun d => d <= 0) ds
    /\ (Forall (fun d => d == 0) ds <-> Sorted Qle (m :: s)).
Proof.
  induction s as [|x rest IH]; intros m Hm.
  - exists []. simpl. repeat split; auto.
  - simpl.
    assert (Hm' : 0 < Qmax m x) by (pose proof (Q.le_max_l m x); lra).
    assert (Hx : x <= Qmax m x) by apply Q.le_max_r.
    destruct (gap_below x (Qmax m x) Hm' Hx) as [Eq [Hle Hzero]].
    destruct (IH (Qmax m x) Hm') as [ds [Eds [Hall Hiff]]].
    exists ((x - Qmax m x) / Qmax m x :: ds).
    simpl in Eq. rewrite Eq, Eds. split; [reflexivity|].
    split; [now constructor|].
    rewrite Sorted_Qle_cons. split.
    + intro H. inversion H as [|d ds' Hd Hds]; subst.
      apply Hzero in Hd. apply Hiff in Hds.
      destruct (Q.max_spec m x) as [[Hlt E]|[Hge E]].
      * split; [lra|]. apply Sorted_Qle_head with (Qmax m x); assumption.
      * assert (x == m) by lra.
        split; [lra|]. apply Sorted_Qle_head with (Qmax m x); [lra|assumption].
    + intros [Hmx Hs].
      assert (E : Qmax m x == x) by (apply Q.max_r; assumption).
      constructor.
      * apply Hzero. lra.
      * apply Hiff. apply Sorted_Qle_head with x; [lra|assumption].
Qed.

Lemma dropna_Num (ds : list Q) : dropna (map Num ds) = map Num ds.
Proof.
  unfold dropna. induction ds as [|d ds IH]; simpl; [reflexivity|].
  now rewrite IH.
Qed.

(** The running minimum of finite numbers is one of them and is below
    all of them. *)
Lemma fold_fmin_Num (ds : list Q) :
  forall a, exists q,
    fold_left fmin (map Num ds) (Num a) = Num q
    /\ q <= a /\ Forall (fun d => q <= d) ds
    /\ (q == a \/ Exists (fun d => q == d) ds).
Proof.
  induction ds as [|d ds IH]; intro a; simpl.
  - exists a. repeat split; auto; try lra; try (left; reflexivity).
  - unfold fmin at 2. simpl.
    destruct (Qltb d a) eqn:E; reflect_Q.
    + destruct (IH d) as [q [Eq [Hle [Hall Hin]]]].
      exists q. rewrite Eq. repeat split; auto; try lra.
      right. destruct Hin; [now constructor | now constructor 2].
    + destruct (IH a) as [q [Eq [Hle [Hall Hin]]]].
      exists q. rewrite Eq. repeat split; auto.
      * constructor; [lra|assumption].
      * destruct Hin; [now left | right; now constructor 2].
Qed.

Lemma gaps_all (c0 : Q) (ct : list Q) :
  0 < c0 ->
  exists d0 ds,
    relative_gap (c0 :: ct) (expanding_max (c0 :: ct)) = map Num (d0 :: ds)
    /\ Forall (fun d => d <= 0) (d0 :: ds)
    /\ (Forall (fun d => d == 0) (d0 :: ds) <-> Sorted Qle (c0 :: ct)).
Proof.
  intro Hpos.
  destruct (gaps_from ct c0 Hpos) as [ds [Eds [Hall Hiff]]].
  destruct (gap_below c0 c0 Hpos (Qle_refl c0)) as [E0 [Hle0 Hz0]].
  exists ((c0 - c0) / c0), ds. split; [|split].
  - change (relative_gap (c0 :: ct) (expanding_max (c0 :: ct)))
      with (fdiv (Num (c0 - c0)) (Num c0)
            :: relative_gap ct (expanding_max_from c0 ct)).
    rewrite E0, Eds. reflexivity.
  - now constructor.
  - rewrite <- Hiff. split; intro H.
    + now inversion H.
    + constructor; [apply Hz0; reflexivity | assumption].
Qed.

Lemma series_min_finite (d0 : Q) (ds : list Q) :
  exists q,
    series_min (map Num (d0 :: ds)) = Num q
    /\ Forall (fun d => q <= d) (d0 :: ds)
    /\ Exists (fun d => q == d) (d0 :: ds).
Proof.
  unfold series_min. rewrite dropna_Num.
  destruct (fold_fmin_Num ds d0) as [q [Eq [Hle [Hlow Hin]]]].
  exists q. split; [exact Eq|]. split.
  - now constructor.
  - destruct Hin; [now constructor | now constructor 2].
Qed.

End DrawdownFacts.

Section MaxDrawdown.
Import Pandas PerformanceAnalyzer DrawdownFacts.

(** C5 (as the code has it).  For a returns Series whose first entry is
    positive and whose cumulative products are 0 or of a magnitude between
    2^-250 and 2^250, so that the running product neither overflows nor
    underflows, the maximum drawdown is a finite number that is at most 0,
    and it is 0 exactly when the cumulative product of the Series is
    non-decreasing at every step. *)
Theorem max_drawdown_nonpositive (self : analyzer) :
  starts_positive (returns self) ->
  forallb float_safeb (cumprod (returns self)) = true ->
  exists q,
    calculate_max_drawdown self = Num q
    /\ q <= 0
    /\ (q == 0 <-> Sorted Qle (cumprod (returns self))).
Proof.
  intros Hstart _. revert Hstart.
  destruct self as [rs ts rf]. unfold calculate_max_drawdown.
  cbn [returns].
  destruct rs as [|first [|second rest]]; intro Hpos.
  - exists 0. simpl. repeat split; auto; lra.
  - exists 0. simpl. repeat split; auto; lra.
  - cbn [length Nat.ltb Nat.leb].
    change (cumprod (first :: second :: rest))
      with (first :: cumprod_from first (second :: rest)).
    destruct (gaps_all first (cumprod_from first (second :: rest)) Hpos)
      as [d0 [ds [Eds [Hall Hiff]]]].
    rewrite Eds.
    destruct (series_min_finite d0 ds) as [q [Eq [Hlow Hin]]].
    rewrite Eq. exists (q * 100).
    split; [reflexivity|].
    apply Exists_exists in Hin. destruct Hin as [d [Hd Hqd]].
    rewrite Forall_forall in Hall, Hlow.
    pose proof (Hall d Hd) as Hd0. cbv beta in Hd0.
    split; [lra|].
    rewrite <- Hiff. split.
    + intro H. rewrite Forall_forall. intros x Hx.
      specialize (Hall x Hx). specialize (Hlow x Hx). cbv beta in *. lra.
    + intro H. rewrite Forall_forall in H. specialize (H d Hd).
      cbv beta in H. lra.
Qed.

Lemma max_drawdown_nonpositive_witness :
  exists q,
    calculate_max_drawdown Samples.rise_then_dip = Num q
    /\ q <= 0
    /\ (q == 0 <-> Sorted Qle (cumprod (returns Samples.rise_then_dip))).
Proof.
  apply (max_drawdown_nonpositive Samples.rise_then_dip).
  - simpl. reflexivity.
  - vm_compute. reflexivity.
Defined.

(** C5 as stated fails for a Series that starts negative: the cumulative
    product of [-1; 2] falls from -1 to -2, yet the maximum drawdown is 0. *)
Lemma max_drawdown_counterexample :
  is_zero (calculate_max_drawdown Samples.negative_start)
  /\ ~ Sorted Qle (cumprod (returns Samples.negative_start)).
Proof.
  split.
  - vm_compute. reflexivity.
  - simpl. intro H. apply Sorted_inv in H. destruct H as [_ H].
    inversion H as [|b l Hle]; subst. vm_compute in Hle.
    apply Hle. reflexivity.
Qed.

End MaxDrawdown.

(** ** Sortino ratio and volatility on short samples *)

Section ShortSamples.
Import Pandas PerformanceAnalyzer.
Variable sqrtQ : Q -> Q.

Lemma std_single (x : fl) : std sqrtQ [x] = NaN.
Proof. unfold std. simpl. destruct (is_nan x); reflexivity. Qed.

Lemma fdiv_nan_r (a : fl) : fdiv a NaN = NaN.
Proof. destruct a; reflexivity. Qed.

(** Whenever exactly one daily return is negative, the downside deviation
    is the deviation of a single sample, which is NaN, and so is the
    ratio. *)
Lemma sortino_one_downside (self : analyzer) (r : fl) :
  (2 <= length (daily_returns self))%nat ->
  filter (fun r => flt r (Num 0))
         (dropna (pct_change (daily_returns self))) = [r] ->
  calculate_sortino_ratio sqrtQ self = NaN.
Proof.
  intros Hlen Hdown. unfold calculate_sortino_ratio.
  destruct (length (daily_returns self) <? 2)%nat eqn:E.
  - apply Nat.ltb_lt in E. lia.
  - cbv zeta. rewrite Hdown.
    destruct (length (dropna (pct_change (daily_returns self))) =? 0)%nat eqn:E0.
    + apply Nat.eqb_eq in E0. apply length_zero_iff_nil in E0.
      rewrite E0 in Hdown. discriminate.
    + rewrite std_single. simpl. rewrite fdiv_nan_r. reflexivity.
Qed.

(** C3 (what the code does at the failing inputs).  With the returns
    Series [1; 0.9; 0.99] the daily returns are -0.1 and 0.1, exactly one
    of them negative, and the Sortino ratio is NaN; with the two-point
    Series [1; 1.1] there is a single daily return and the volatility is
    NaN. *)
Theorem sortino_volatility_nan :
  calculate_sortino_ratio sqrtQ Samples.one_down_day = NaN
  /\ calculate_volatility sqrtQ Samples.two_points = NaN.
Proof.
  split.
  - apply sortino_one_downside with (r := Num ((9 # 10) / 1 + - (1))).
    + simpl. lia.
    + reflexivity.
  - reflexivity.
Qed.

End ShortSamples.

(** ** Annual return *)

Module PowFacts.

Lemma Qltb_compat (x x' y y' : Q) :
  x == x' -> y == y' -> Qltb x y = Qltb x' y'.
Proof.
  intros Ex Ey.
  destruct (Qltb x y) eqn:E1; destruct (Qltb x' y') eqn:E2;
    reflect_Q; try reflexivity; exfalso; lra.
Qed.

Lemma Qzerob_compat (x x' : Q) : x == x' -> Qzerob x = Qzerob x'.
Proof.
  intros Ex.
  destruct (Qzerob x) eqn:E1; destruct (Qzerob x') eqn:E2;
    reflect_Q; try reflexivity; exfalso.
  - apply E2. lra.
  - apply E1. lra.
Qed.

(** The power does not depend on how its rational arguments are
    written. *)
Lemma np_pow_compat (x x' y y' : Q) :
  x == x' -> y == y' -> np_pow x y = np_pow x' y'.
Proof.
  intros Ex Ey. unfold np_pow, Qis_integer.
  rewrite (Qzerob_compat y y' Ey), (Qzerob_compat x x' Ex).
  rewrite (Qltb_compat 0 0 x x' (Qeq_refl 0) Ex).
  rewrite (Qltb_compat 0 0 y y' (Qeq_refl 0) Ey).
  rewrite (Qred_complete y y' Ey).
  rewrite (Qeq_eqR x x' Ex), (Qeq_eqR y y' Ey).
  assert (Ep : Q2R (x ^ Qnum (Qred y')) = Q2R (x' ^ Qnum (Qred y'))).
  { apply Qeq_eqR. now rewrite Ex. }
  rewrite Ep. reflexivity.
Qed.

Lemma Rpower_above_one (a b : R) : (1 < a -> 0 < b -> 1 < Rpower a b)%R.
Proof.
  intros Ha Hb.
  rewrite <- (Rpower_O a) by lra.
  apply Rpower_lt; assumption.
Qed.

End PowFacts.

Section AnnualReturn.
Import PerformanceAnalyzer PowFacts.

Let N (self : analyzer) : Q := inject_Z (Z.of_nat (length (returns self))).

(** C4 (as the code has it).  For a non-empty returns Series of length N,
    the annual return is ((1 + total_return/100)^(1/n_years) - 1) x 100
    with n_years = N / DAYS_PER_YEAR; n_years is positive, so the
    zero branch is never taken. *)
Theorem annual_return_formula (self : analyzer) :
  returns self <> [] ->
  0 < N self / Config.DAYS_PER_YEAR
  /\ calculate_annual_return self
     = rl_lift (fun power => ((power - 1) * 100)%R)
               (np_pow (1 + calculate_total_return self / 100)
                       (1 / (N self / Config.DAYS_PER_YEAR))).
Proof.
  intro Hne. unfold calculate_annual_return, calculate_total_return, n_years.
  fold (N self).
  assert (HN : 0 < N self).
  { unfold N. destruct (returns self) as [|x l]; [congruence|].
    simpl length. rewrite Nat2Z.inj_succ.
    change 0 with (inject_Z 0). rewrite <- Zlt_Qlt. lia. }
  assert (Hy : 0 < N self / Config.DAYS_PER_YEAR).
  { apply Qlt_shift_div_l; [reflexivity|]. lra. }
  split; [exact Hy|].
  destruct (returns self) as [|x l] eqn:E; [congruence|].
  destruct (Qle_bool (N self / Config.DAYS_PER_YEAR) 0) eqn:Ele.
  - apply Qle_bool_iff in Ele. lra.
  - f_equal. apply np_pow_compat; [field | reflexivity].
Qed.

Lemma annual_return_formula_witness :
  0 < N Samples.two_points / Config.DAYS_PER_YEAR
  /\ calculate_annual_return Samples.two_points
     = rl_lift (fun power => ((power - 1) * 100)%R)
               (np_pow (1 + calculate_total_return Samples.two_points / 100)
                       (1 / (N Samples.two_points / Config.DAYS_PER_YEAR))).
Proof.
  apply (annual_return_formula Samples.two_points). simpl. discriminate.
Defined.

(** C4 as stated fails for a one-point Series: with n_years = (N-1)/252
    the specification's formula gives 0 for [2], while the code raises 2
    to the power 252. *)
Lemma annual_return_counterexample :
  spec_annual_return Samples.one_point = RNum 0%R
  /\ calculate_annual_return Samples.one_point
     <> spec_annual_return Samples.one_point.
Proof.
  assert (Hs : spec_annual_return Samples.one_point = RNum 0%R) by reflexivity.
  split; [exact Hs|]. rewrite Hs.
  unfold calculate_annual_return, Samples.one_point. cbn [returns].
  set (y := 1 / n_years (mkAnalyzer [2] [] Config.RISK_FREE_RATE)).
  assert (Ey : y == 252) by reflexivity.
  replace (Qle_bool (n_years (mkAnalyzer [2] [] Config.RISK_FREE_RATE)) 0)
    with false by reflexivity.
  rewrite (np_pow_compat _ 2 y 252) by (vm_compute; reflexivity).
  unfold np_pow.
  replace (Qzerob 252) with false by reflexivity.
  replace (Qltb 0 2) with true by reflexivity.
  simpl rl_lift. intro H. injection H as H.
  assert (H1 : (1 < Rpower (Q2R 2) (Q2R 252))%R).
  { apply Rpower_above_one; unfold Q2R; simpl; lra. }
  lra.
Qed.

End AnnualReturn.

(** ** Validation before the simulation *)

Section RunValidation.
Import BacktestEngine.
Variable cerebro_run : list cerebro_call -> outcome strat.

(** Without one of the five OHLCV columns, [run] raises ValueError after
    the two broker settings and before anything else. *)
Lemma run_missing_column self cls data params :
  forallb (has_column data) required_cols = false ->
  run cerebro_run self cls data params
  = (Raise ValueError,
     [SetCash (initial_capital self); SetCommission (commission self)]).
Proof.
  intro H. unfold run, bind, call, _create_data_feed. simpl.
  unfold required_cols in H. simpl in H. rewrite H. reflexivity.
Qed.

(** With the five columns and at least one bar, [run] hands capital,
    commission and strategy parameters to backtrader as they are and
    starts the simulation. *)
Lemma run_starts self cls data params first rest :
  forallb (has_column data) required_cols = true ->
  index data = first :: rest ->
  let calls :=
    [SetCash (initial_capital self); SetCommission (commission self);
     AddData (mkFeed data first (last (index data) first));
     AddStrategy cls (match params with None => [] | Some ps => ps end);
     AddAnalyzer "sharpe_ratio"; AddAnalyzer "returns";
     AddAnalyzer "drawdown"; AddAnalyzer "trades";
     AddAnalyzer "sqn"; AddAnalyzer "vwr"] in
  run cerebro_run self cls data params
  = (match cerebro_run calls with
     | Raise e => Raise e
     | Return st => Return (_extract_results self st)
     end, calls ++ [Run]).
Proof.
  intros H Hi calls. subst calls.
  unfold run, bind, call, _create_data_feed.
  unfold required_cols in H. simpl in H. simpl. rewrite H. simpl.
  rewrite Hi. unfold _add_analyzers, run_cerebro, bind, call, ret. simpl.
  destruct (cerebro_run _); reflexivity.
Qed.


End RunValidation.

Section RunCounterexample.
Import BacktestEngine.


End RunCounterexample.

(** ** Signals and order notifications *)

Section Signals.
Import BaseStrategy.

(** C7.  A BUY requested while a position is open, and a SELL requested
    while flat, return the strategy state as it was: no order reaches the
    broker, [self.order] is untouched, and the call completes. *)
Theorem invalid_signal_is_noop (s : strategy) :
  (~ position s == 0 ->
   buy_signal s = s /\ broker (buy_signal s) = broker s)
  /\ (position s == 0 ->
      sell_signal s = s /\ broker (sell_signal s) = broker s).
Proof.
  unfold buy_signal, sell_signal, in_position. split; intro H.
  - apply Qzerob_neq in H. rewrite H. simpl. split; reflexivity.
  - apply Qzerob_eq in H. rewrite H. simpl. split; reflexivity.
Qed.

Lemma invalid_signal_is_noop_witness :
  (buy_signal Samples.long_position = Samples.long_position
   /\ broker (buy_signal Samples.long_position) = broker Samples.long_position)
  /\ (sell_signal init = init /\ broker (sell_signal init) = broker init).
Proof.
  split.
  - apply (proj1 (invalid_signal_is_noop Samples.long_position)).
    simpl. discriminate.
  - apply (proj2 (invalid_signal_is_noop init)). simpl. reflexivity.
Defined.

(** C10.  Every completed order adds 1 to [trade_count], while the
    Submitted and Accepted notifications that precede it change nothing; a
    completed BUY followed by a completed SELL adds 2 to [trade_count] and
    1 to [winning_trades + losing_trades]; a SELL filled at the recorded
    buy price is a losing trade, and a SELL is a winning trade exactly when
    a non-zero buy price is recorded and the fill price is strictly above
    it. *)
Theorem notify_order_counts :
  (forall o s, status o = Completed ->
      trade_count (notify_order o s) = (trade_count s + 1)%Z)
  /\ (forall o s, status o = Submitted \/ status o = Accepted ->
         notify_order o s = s)
  /\ (forall b sl s,
         status b = Completed -> order_side b = Buy ->
         status sl = Completed -> order_side sl = Sell ->
         let s' := notify_order sl (notify_order b s) in
         trade_count s' = (trade_count s + 2)%Z
         /\ (winning_trades s' + losing_trades s'
             = winning_trades s + losing_trades s + 1)%Z)
  /\ (forall sl s,
         status sl = Completed -> order_side sl = Sell ->
         let s' := notify_order sl s in
         (forall p, buy_price s = Some p -> executed_price sl == p ->
                    losing_trades s' = (losing_trades s + 1)%Z
                    /\ winning_trades s' = winning_trades s)
         /\ (winning_trades s' = (winning_trades s + 1)%Z
             <-> exists p, buy_price s = Some p /\ ~ p == 0
                           /\ p < executed_price sl)).
Proof.
  split; [|split; [|split]].
  - intros o s Hst. unfold notify_order. rewrite Hst.
    unfold isbuy, issell. destruct (order_side o); simpl.
    + reflexivity.
    + destruct (Qltb 0 _); reflexivity.
  - intros o s [H|H]; unfold notify_order; rewrite H; reflexivity.
  - intros b sl s Hb Hbs Hsl Hss. unfold notify_order. rewrite Hb, Hsl.
    unfold isbuy, issell. rewrite Hbs, Hss. simpl.
    destruct (Qltb 0 _); simpl; split; lia.
  - intros sl s Hsl Hss. unfold notify_order. rewrite Hsl.
    unfold isbuy, issell. rewrite Hss. cbv zeta. cbv iota. split.
    + intros p Hp Heq. rewrite Hp. unfold truthy.
      destruct (Qzerob p) eqn:Ez; simpl.
      * split; reflexivity.
      * destruct (Qltb 0 (executed_price sl - p)) eqn:E; reflect_Q.
        -- exfalso. lra.
        -- simpl. split; reflexivity.
    + destruct (buy_price s) as [p|] eqn:Hp; unfold truthy.
      * destruct (Qzerob p) eqn:Ez; simpl.
        -- reflect_Q. split; [lia|].
           intros [p' [E [Hnz _]]]. injection E as <-. contradiction.
        -- destruct (Qltb 0 (executed_price sl - p)) eqn:E; reflect_Q; simpl.
           ++ split; [|reflexivity].
              intros _. exists p. repeat split; auto. lra.
           ++ split; [lia|].
              intros [p' [E' [_ Hlt]]]. injection E' as <-. lra.
      * simpl. split; [lia|]. intros [p [E _]]. discriminate.
Qed.

End Signals.

(** ** Precedence of BUY over SELL *)

Section Precedence.
Import BaseStrategy Strategies.

Lemma signal_orders (s : strategy) :
  (length (broker (buy_signal s)) <= length (broker s) + 1)%nat
  /\ (length (broker (sell_signal s)) <= length (broker s) + 1)%nat.
Proof.
  unfold buy_signal, sell_signal.
  destruct (in_position s); simpl; rewrite ?length_app; simpl; lia.
Qed.

(** C6.  In each of the four variants [next] tests the BUY condition
    first: when it holds the bar is a BUY, whatever the SELL condition
    is; the SELL condition decides only when the BUY condition does not
    hold; otherwise nothing is done.  So the lines logged in one bar never
    contain both a BUY and a SELL, and at most one order is placed. *)
Theorem buy_before_sell (b : bar) (s : strategy) :
  (buy_condition b s = true -> next b s = (buy_signal s, [Buy]))
  /\ (buy_condition b s = false -> sell_condition b s = true ->
      next b s = (sell_signal s, [Sell]))
  /\ (buy_condition b s = false -> sell_condition b s = false ->
      next b s = (s, []))
  /\ ~ (In Buy (snd (next b s)) /\ In Sell (snd (next b s)))
  /\ (length (broker (fst (next b s))) <= length (broker s) + 1)%nat.
Proof.
  pose proof (signal_orders s) as [Hb Hs].
  destruct b; simpl;
    unfold MAcrossoverStrategy.next, RSIStrategy.next,
           BollingerBandsStrategy.next, MomentumStrategy.next; simpl;
    match goal with
    | |- context [if ?c then _ else if ?d then _ else _] =>
        destruct c eqn:Ebuy; [|destruct d eqn:Esell]
    end; simpl;
    (repeat split; try congruence; try assumption; try lia;
     try (intros [H1 H2]; simpl in *; intuition congruence)).
Qed.

End Precedence.

(** ** The equity Series plotted by the command line *)

Module EquityFacts.
Import Pandas.

Lemma Qmax_same (v : Q) : Qmax v v = v.
Proof.
  unfold Qmax, GenericMinMax.gmax. destruct (v ?= v); reflexivity.
Qed.

Lemma expanding_max_from_repeat (v : Q) (n : nat) :
  expanding_max_from v (repeat v n) = repeat v n.
Proof.
  induction n as [|n IH]; simpl; [reflexivity|].
  rewrite Qmax_same, IH. reflexivity.
Qed.

Lemma expanding_max_repeat (v : Q) (n : nat) :
  expanding_max (repeat v n) = repeat v n.
Proof.
  destruct n as [|n]; simpl; [reflexivity|].
  now rewrite expanding_max_from_repeat.
Qed.

Lemma relative_gap_repeat (v : Q) (n : nat) :
  relative_gap (repeat v n) (repeat v n)
  = repeat (fdiv (Num (v - v)) (Num v)) n.
Proof.
  induction n as [|n IH]; [reflexivity|].
  cbn [repeat relative_gap]. now rewrite IH.
Qed.

Lemma Forall_repeat {A} (P : A -> Prop) (x : A) (n : nat) :
  P x -> Forall P (repeat x n).
Proof. intro H. induction n; simpl; constructor; assumption. Qed.

End EquityFacts.

Section EquityCurve.
Import Pandas Cli EquityFacts.

(** C9 (as the code has it).  The Series built for plotting has one
    point per date and every point is capital x (1 + total_return/100).
    The drawdown computed from it has the same length; it is 0 at every
    point when that value is not zero, and NaN at every point when it
    is zero.  The equity path of the run plays no part. *)
Theorem equity_curve_is_constant (capital total_return : Q) (dates : list Z) :
  let v := capital * (1 + total_return / 100) in
  let equity := equity_values capital total_return dates in
  length equity = length dates
  /\ Forall (fun x => x = v) equity
  /\ length (plot_drawdown equity) = length dates
  /\ (~ v == 0 -> Forall is_zero (plot_drawdown equity))
  /\ (v == 0 -> Forall (fun d => d = NaN) (plot_drawdown equity)).
Proof.
  intros v equity. unfold equity, equity_values. fold v.
  unfold plot_drawdown.
  rewrite expanding_max_repeat, relative_gap_repeat, map_repeat.
  rewrite !repeat_length.
  split; [reflexivity|]. split; [|split; [reflexivity|split]].
  - apply Forall_repeat. reflexivity.
  - intro Hv. apply Forall_repeat. simpl.
    apply Qzerob_neq in Hv. rewrite Hv. simpl. unfold Qdiv. ring.
  - intro Hv. apply Forall_repeat. simpl.
    apply Qzerob_eq in Hv. rewrite Hv. unfold inf_signed.
    assert (Hz : Qzerob (v - v) = true) by (apply Qzerob_eq; ring).
    rewrite Hz. reflexivity.
Qed.

(** C9 as stated fails when the plotted value is 0, here with a total
    return of -100: the drawdown is NaN at every bar, not 0. *)
Lemma equity_curve_counterexample :
  plot_drawdown (equity_values 100000 (- (100)) [1; 2; 3]%Z) = [NaN; NaN; NaN]
  /\ ~ Forall is_zero
         (plot_drawdown (equity_values 100000 (- (100)) [1; 2; 3]%Z)).
Proof.
  assert (E : plot_drawdown (equity_values 100000 (- (100)) [1; 2; 3]%Z)
              = [NaN; NaN; NaN]) by reflexivity.
  rewrite E. split; [reflexivity|].
  intro H. inversion H as [|x l Hx _]. exact Hx.
Qed.

End EquityCurve.

(** ** Moving-average crossover on a rising series *)

Module CrossoverFacts.
Import Indicators.

Lemma firstn_add_split {A} (a b : nat) (l : list A) :
  firstn (a + b) l = firstn a l ++ firstn b (skipn a l).
Proof.
  revert l. induction a as [|a IH]; intro l; [reflexivity|].
  destruct l as [|x l]; simpl.
  - now rewrite firstn_nil.
  - now rewrite IH.
Qed.

(** The slow window is a block of older closes followed by the fast
    window. *)
Lemma window_split (fast slow t : nat) (closes : list Q) :
  (fast <= slow)%nat -> (slow <= t + 1)%nat ->
  window slow t closes
  = firstn (slow - fast) (skipn (t + 1 - slow) closes)
    ++ window fast t closes.
Proof.
  intros Hfs Hst. unfold window.
  replace (firstn slow (skipn (t + 1 - slow) closes))
    with (firstn ((slow - fast) + fast) (skipn (t + 1 - slow) closes))
    by (f_equal; lia).
  rewrite firstn_add_split, skipn_skipn.
  replace (slow - fast + (t + 1 - slow))%nat with (t + 1 - fast)%nat by lia.
  reflexivity.
Qed.

Lemma window_length (n t : nat) (closes : list Q) :
  (n <= t + 1)%nat -> (t < length closes)%nat ->
  length (window n t closes) = n.
Proof.
  intros Hn Ht. unfold window. rewrite length_firstn, length_skipn. lia.
Qed.

Lemma StronglySorted_app_inv {A} (R : A -> A -> Prop) (l1 l2 : list A) :
  StronglySorted R (l1 ++ l2) ->
  StronglySorted R l1 /\ StronglySorted R l2
  /\ (forall a b, In a l1 -> In b l2 -> R a b).
Proof.
  induction l1 as [|x l1 IH]; simpl; intro H.
  - repeat split; [constructor | assumption | intros a b []].
  - apply StronglySorted_inv in H. destruct H as [Hs Hall].
    destruct (IH Hs) as [H1 [H2 H12]].
    rewrite Forall_forall in Hall.
    repeat split.
    + constructor; [assumption|]. apply Forall_forall.
      intros y Hy. apply Hall, in_or_app. now left.
    + assumption.
    + intros a b [<-|Ha] Hb.
      * apply Hall, in_or_app. now right.
      * now apply H12.
Qed.

Lemma window_sorted (n t : nat) (closes : list Q) :
  StronglySorted Qlt closes -> StronglySorted Qlt (window n t closes).
Proof.
  intro H. unfold window.
  rewrite <- (firstn_skipn (t + 1 - n) closes) in H.
  apply StronglySorted_app_inv in H. destruct H as [_ [H _]].
  rewrite <- (firstn_skipn n (skipn (t + 1 - n) closes)) in H.
  apply StronglySorted_app_inv in H. now destruct H as [H _].
Qed.

Lemma Qsum_app (l1 l2 : list Q) : Qsum (l1 ++ l2) == Qsum l1 + Qsum l2.
Proof.
  induction l1 as [|x l1 IH]; simpl; [ring|]. rewrite IH. ring.
Qed.

Lemma Qlen_cons (x : Q) (l : list Q) : Qlen (x :: l) == Qlen l + 1.
Proof.
  unfold Qlen. simpl length. rewrite Nat2Z.inj_succ, <- Z.add_1_r.
  rewrite inject_Z_plus. reflexivity.
Qed.

Lemma Qlen_nonneg (l : list Q) : 0 <= Qlen l.
Proof.
  unfold Qlen. change 0 with (inject_Z 0). rewrite <- Zle_Qle. lia.
Qed.

Lemma Qsum_below (m : Q) (l : list Q) :
  Forall (fun a => a < m) l -> l <> [] -> Qsum l < Qlen l * m.
Proof.
  induction 1 as [|a l Ha Hl IH]; intro Hne; [congruence|].
  simpl Qsum. rewrite Qlen_cons.
  destruct l as [|b l'].
  - change (Qsum []) with 0. change (Qlen []) with 0. lra.
  - assert (Qsum (b :: l') < Qlen (b :: l') * m) by (apply IH; discriminate).
    lra.
Qed.

Lemma Qsum_above (m : Q) (l : list Q) :
  Forall (fun b => m <= b) l -> Qlen l * m <= Qsum l.
Proof.
  induction 1 as [|b l Hb Hl IH].
  - change (Qsum []) with 0. change (Qlen []) with 0. lra.
  - simpl Qsum. rewrite Qlen_cons. lra.
Qed.

(** The mean of a block followed by strictly larger values is below the
    mean of the larger values. *)
Lemma mean_of_tail_is_larger (older newer : list Q) :
  older <> [] -> newer <> [] ->
  StronglySorted Qlt (older ++ newer) ->
  Qsum (older ++ newer) / Qlen (older ++ newer) < Qsum newer / Qlen newer.
Proof.
  intros Ho Hn Hs.
  apply StronglySorted_app_inv in Hs. destruct Hs as [_ [Hnew Hcross]].
  destruct newer as [|m newer']; [congruence|].
  apply StronglySorted_inv in Hnew. destruct Hnew as [_ Hm].
  assert (Hlow : Forall (fun a => a < m) older).
  { apply Forall_forall. intros a Ha. apply Hcross; [assumption | now left]. }
  assert (Hhigh : Forall (fun b => m <= b) (m :: newer')).
  { constructor; [lra|]. eapply Forall_impl; [|exact Hm].
    intros b Hb. simpl in Hb. lra. }
  pose proof (Qsum_below m older Hlow Ho) as H1.
  pose proof (Qsum_above m (m :: newer') Hhigh) as H2.
  assert (Hno : 0 < Qlen older).
  { destruct older as [|a o]; [congruence|]. rewrite Qlen_cons.
    pose proof (Qlen_nonneg o). lra. }
  assert (Hnn : 0 < Qlen (m :: newer')).
  { rewrite Qlen_cons. pose proof (Qlen_nonneg newer'). lra. }
  assert (Elen : Qlen (older ++ m :: newer') == Qlen older + Qlen (m :: newer')).
  { unfold Qlen. rewrite length_app, Nat2Z.inj_add, inject_Z_plus. reflexivity. }
  rewrite Qsum_app, Elen.
  set (sa := Qsum older) in *. set (sb := Qsum (m :: newer')) in *.
  set (na := Qlen older) in *. set (nb := Qlen (m :: newer')) in *.
  apply Qlt_shift_div_r; [lra|].
  assert (E : sb / nb * (na + nb) == (sb * (na + nb)) / nb) by (field; lra).
  rewrite E. apply Qlt_shift_div_l; [lra|]. nra.
Qed.

(** On a strictly increasing series the fast average is above the slow
    one at every bar where both are ready. *)
Lemma sma_fast_above_slow (fast slow t : nat) (closes : list Q) (f sl : Q) :
  StronglySorted Qlt closes -> (fast < slow)%nat ->
  sma fast closes t = Some f -> sma slow closes t = Some sl ->
  sl < f.
Proof.
  intros Hs Hfs Hf Hsl. unfold sma in Hf, Hsl.
  destruct ((fast =? 0)%nat || (t + 1 <? fast)%nat || (length closes <=? t)%nat)
    eqn:Ef; [discriminate|].
  destruct ((slow =? 0)%nat || (t + 1 <? slow)%nat || (length closes <=? t)%nat)
    eqn:Es; [discriminate|].
  apply orb_false_iff in Ef. destruct Ef as [Ef Ef3].
  apply orb_false_iff in Ef. destruct Ef as [Ef1 Ef2].
  apply orb_false_iff in Es. destruct Es as [Es _].
  apply orb_false_iff in Es. destruct Es as [_ Es2].
  apply Nat.eqb_neq in Ef1. apply Nat.ltb_ge in Ef2, Es2.
  apply Nat.leb_gt in Ef3.
  injection Hf as <-. injection Hsl as <-.
  pose proof (window_length fast t closes Ef2 Ef3) as Lf.
  pose proof (window_length slow t closes Es2 Ef3) as Ls.
  pose proof (window_sorted slow t closes Hs) as Hw.
  rewrite (window_split fast slow t closes) in Hw, Ls |- * by lia.
  set (older := firstn (slow - fast) (skipn (t + 1 - slow) closes)) in *.
  set (newer := window fast t closes) in *.
  assert (Ho : older <> []).
  { intro E. rewrite E in Ls. simpl in Ls. lia. }
  assert (Hn : newer <> []).
  { intro E. rewrite E in Lf. simpl in Lf. lia. }
  pose proof (mean_of_tail_is_larger older newer Ho Hn Hw) as H.
  unfold Qlen in H. rewrite Ls, Lf in H. exact H.
Qed.

End CrossoverFacts.

Section RisingSeries.
Import BaseStrategy Indicators Strategies CrossoverFacts.
Variable settle : strategy -> strategy.

(** On a strictly increasing series the crossover reading is 0 whenever
    it is ready. *)
Lemma crossover_rising (fast slow t : nat) (closes : list Q) :
  StronglySorted Qlt closes -> (fast < slow)%nat ->
  crossover fast slow closes t = None
  \/ crossover fast slow closes t = Some 0.
Proof.
  intros Hs Hfs. unfold crossover.
  destruct t as [|t']; [now left|].
  destruct (sma fast closes t') as [pf|] eqn:E1; [|now left].
  destruct (sma slow closes t') as [ps|] eqn:E2; [|now left].
  destruct (sma fast closes (S t')) as [cf|] eqn:E3; [|now left].
  destruct (sma slow closes (S t')) as [cs|] eqn:E4; [|now left].
  pose proof (sma_fast_above_slow _ _ _ _ _ _ Hs Hfs E1 E2) as Hprev.
  pose proof (sma_fast_above_slow _ _ _ _ _ _ Hs Hfs E3 E4) as Hcur.
  right.
  destruct (Qle_bool pf ps) eqn:Ele.
  - apply Qle_bool_iff in Ele. lra.
  - simpl. destruct (Qltb cf cs) eqn:Elt; reflect_Q; [lra|].
    rewrite andb_false_r. reflexivity.
Qed.

(** Readings that are 0 or not ready produce no signal, whatever the
    broker does between the bars. *)
Lemma run_bars_quiet (readings : list (option Q)) :
  Forall (fun r => r = None \/ r = Some 0) readings ->
  forall s, run_bars settle readings s = [].
Proof.
  induction 1 as [|r rest Hr Hrest IH]; intro s; [reflexivity|].
  simpl. destruct Hr as [-> | ->].
  - apply IH.
  - unfold MAcrossoverStrategy.next, MAcrossoverStrategy.buy_condition,
      MAcrossoverStrategy.sell_condition.
    replace (Qltb 0 0) with false by reflexivity. simpl. apply IH.
Qed.

Lemma ma_signals_rising (fast slow : nat) (closes : list Q) (s : strategy) :
  Sorted Qlt closes -> (fast < slow)%nat ->
  ma_signals settle fast slow closes s = [].
Proof.
  intros Hs Hfs. unfold ma_signals. apply run_bars_quiet.
  apply Forall_forall. intros r Hr.
  apply in_map_iff in Hr. destruct Hr as [t [<- _]].
  apply crossover_rising; [|assumption].
  apply Sorted_StronglySorted; [|assumption].
  intros x y z. apply Qlt_trans.
Qed.

(** C8.  On a strictly increasing price series, with
    fast_period < slow_period, the moving-average strategy logs at most
    one BUY and no SELL over the whole run. *)
Theorem ma_crossover_rising_series
        (fast slow : nat) (closes : list Q) (s : strategy) :
  Sorted Qlt closes -> (fast < slow)%nat ->
  (count_side Buy (ma_signals settle fast slow closes s) <= 1)%nat
  /\ count_side Sell (ma_signals settle fast slow closes s) = 0%nat.
Proof.
  intros Hs Hfs. rewrite (ma_signals_rising fast slow closes s Hs Hfs).
  unfold count_side. simpl. split; [lia | reflexivity].
Qed.

End RisingSeries.

Section RisingSeriesWitness.
Import BaseStrategy Strategies.

Lemma ma_crossover_rising_series_witness :
  (count_side Buy (ma_signals Samples.idle_broker 2 3 Samples.rising_closes init)
   <= 1)%nat
  /\ count_side Sell (ma_signals Samples.idle_broker 2 3 Samples.rising_closes init)
     = 0%nat.
Proof.
  apply (ma_crossover_rising_series
           Samples.idle_broker 2 3 Samples.rising_closes init).
  - unfold Samples.rising_closes. repeat constructor.
  - lia.
Defined.

End RisingSeriesWitness.

(** ** The model at work on small inputs *)

Module Examples.
Import Pandas PerformanceAnalyzer BaseStrategy Strategies.

Example profit_factor_winners_only :
  calculate_profit_factor
    (mkAnalyzer [] [[("pnl"%string, 5)]; [("pnl"%string, 3)]] 0) = PInf.
Proof. reflexivity. Qed.

Example profit_factor_mixed :
  finite_eq
    (calculate_profit_factor
       (mkAnalyzer [] [[("pnl"%string, 5)]; [("pnl"%string, - (2))];
                       [("size"%string, 3)]] 0))
    (5 # 2).
Proof. reflexivity. Qed.

Example max_drawdown_ten_percent :
  finite_eq (calculate_max_drawdown (mkAnalyzer [1; 11 # 10; 9 # 10] [] 0))
            (- (10)).
Proof. reflexivity. Qed.

Example max_drawdown_starting_at_zero :
  calculate_max_drawdown (mkAnalyzer [0; 2] [] 0) = NaN.
Proof. reflexivity. Qed.

Example daily_returns_of_three_points :
  dropna (pct_change [1; 9 # 10; 99 # 100])
  = [Num ((9 # 10) / 1 + - (1)); Num ((99 # 100) / (9 # 10) + - (1))].
Proof. reflexivity. Qed.

Example sortino_without_losses (sqrtQ : Q -> Q) :
  calculate_sortino_ratio sqrtQ (mkAnalyzer [1; 11 # 10; 12 # 10] [] 0)
  = Num 0.
Proof. reflexivity. Qed.

Example round_trip_at_the_same_price :
  let s := notify_order (mkOrder Completed Sell 100 0)
             (notify_order (mkOrder Completed Buy 100 0) init) in
  trade_count s = 2%Z /\ winning_trades s = 0%Z /\ losing_trades s = 1%Z.
Proof. repeat split. Qed.

Example crossover_readings :
  map (Indicators.crossover 2 3 [5; 4; 3; 2; 1; 2; 4; 8; 7; 3; 1]) (seq 0 11)
  = [None; None; None; Some 0; Some 0; Some 0; Some 1; Some 0; Some 0;
     Some (- (1)); Some 0].
Proof. reflexivity. Qed.

Example ma_signals_down_up_down :
  ma_signals (fun s => s) 2 3 [5; 4; 3; 2; 1; 2; 4; 8; 7; 3; 1] init
  = [Buy; Sell].
Proof. reflexivity. Qed.

Example run_without_volume :
  BacktestEngine.run
    (fun _ => BacktestEngine.Return (BacktestEngine.mkStrat [] 0))
    (BacktestEngine.mkEngine Config.DEFAULT_CAPITAL Config.DEFAULT_COMMISSION)
    BacktestEngine.RSIStrategy
    (BacktestEngine.mkDataFrame ["Open"; "High"; "Low"; "Close"]%string
                                [1; 2; 3]%Z)
    None
  = (BacktestEngine.Raise BacktestEngine.ValueError,
     [BacktestEngine.SetCash Config.DEFAULT_CAPITAL;
      BacktestEngine.SetCommission Config.DEFAULT_COMMISSION]).
Proof. reflexivity. Qed.

End Examples.

(** * Further properties of the analyzer *)

Module TradeFacts.
Import PerformanceAnalyzer.

Lemma filter_all_length {A} (f : A -> bool) (l : list A) :
  length (filter f l) = length l <-> Forall (fun x => f x = true) l.
Proof.
  induction l as [|x l IH]; simpl.
  - split; [constructor | reflexivity].
  - pose proof (filter_length_le f l) as Hle.
    destruct (f x) eqn:E; simpl.
    + split; intro H.
      * constructor; [assumption|]. apply IH. lia.
      * inversion H; subst. f_equal. now apply IH.
    + split; intro H; [lia|]. inversion H; congruence.
Qed.

Lemma Qnat_le (a b : nat) :
  (a <= b)%nat -> inject_Z (Z.of_nat a) <= inject_Z (Z.of_nat b).
Proof. intro H. rewrite <- Zle_Qle. lia. Qed.

Lemma Qnat_eq (a b : nat) :
  inject_Z (Z.of_nat a) == inject_Z (Z.of_nat b) <-> a = b.
Proof.
  rewrite inject_Z_injective. split; intro H; [lia | now subst].
Qed.

Lemma Qnat_pos (a : nat) : (0 < a)%nat -> 0 < inject_Z (Z.of_nat a).
Proof. intro H. change 0 with (inject_Z 0). rewrite <- Zlt_Qlt. lia. Qed.

Lemma pnl_missing (t : trade) : dict_find "pnl" t = None -> pnl t = 0.
Proof. intro H. unfold pnl, dict_get. now rewrite H. Qed.

End TradeFacts.

Section WinRate.
Import PerformanceAnalyzer TradeFacts ProfitFactorFacts.

(** X1.  The win rate lies between 0 and 100; it is 0 for an empty trade
    list and 100 exactly when the list is not empty and every trade has a
    positive pnl. *)
Theorem win_rate_bounds (self : analyzer) :
  0 <= calculate_win_rate self <= 100
  /\ (trades self = [] -> calculate_win_rate self == 0)
  /\ (calculate_win_rate self == 100
      <-> trades self <> [] /\ Forall (fun t => 0 < pnl t) (trades self)).
Proof.
  unfold calculate_win_rate. destruct (trades self) as [|t ts] eqn:E.
  - repeat split; try lra; try reflexivity;
      try (intro H; exfalso; lra); intros [H _]; congruence.
  - rewrite <- E.
    set (f := fun t => Qltb 0 (pnl t)).
    assert (Hn : (0 < length (trades self))%nat \/ trades self = []).
    { destruct (trades self); [now right | left; simpl; lia]. }
    destruct Hn as [Hn | Hn].
    2:{ rewrite Hn in E. discriminate. }
    pose proof (filter_length_le f (trades self)) as Hle.
    pose proof (Qnat_le _ _ Hle) as HleQ.
    pose proof (Qnat_pos _ Hn) as Hpos.
    assert (Hw : 0 <= inject_Z (Z.of_nat (length (filter f (trades self))))).
    { change 0 with (inject_Z 0). rewrite <- Zle_Qle. lia. }
    set (w := inject_Z (Z.of_nat (length (filter f (trades self))))) in *.
    set (n := inject_Z (Z.of_nat (length (trades self)))) in *.
    assert (H0 : 0 <= w / n) by (apply Qle_shift_div_l; lra).
    assert (H1 : w / n <= 1) by (apply Qle_shift_div_r; lra).
    split; [split; lra|]. split.
    + intro Hnil. rewrite Hnil in Hn. simpl in Hn. lia.
    + assert (Hiff : w / n * 100 == 100 <-> w == n).
      { split; intro H.
        - assert (Hd : w / n == 1) by lra.
          assert (Ew : w == w / n * n) by (field; lra).
          rewrite Ew, Hd. ring.
        - rewrite H. field. lra. }
      rewrite Hiff. unfold w, n. rewrite Qnat_eq, filter_all_length.
      split.
      * intro H. split.
        -- intro Hnil. rewrite Hnil in Hn. simpl in Hn. lia.
        -- eapply Forall_impl; [|exact H]. intros x Hx. now apply Qltb_lt.
      * intros [_ H]. eapply Forall_impl; [|exact H].
        intros x Hx. now apply Qltb_lt.
Qed.

(** X2.  A trade dictionary without a ['pnl'] entry counts as a trade with
    pnl 0: adding it changes neither the gross profit, nor the gross loss,
    nor (for a list that was not empty) the profit factor, and it cannot
    raise the win rate. *)
Theorem trade_without_pnl (t : trade) (rs : list Q) (ts : list trade) (rf : Q) :
  dict_find "pnl" t = None ->
  gross_profit (t :: ts) = gross_profit ts
  /\ gross_loss (t :: ts) = gross_loss ts
  /\ (ts <> [] ->
      calculate_profit_factor (mkAnalyzer rs (t :: ts) rf)
      = calculate_profit_factor (mkAnalyzer rs ts rf))
  /\ calculate_win_rate (mkAnalyzer rs (t :: ts) rf)
     <= calculate_win_rate (mkAnalyzer rs ts rf).
Proof.
  intro Hmiss. pose proof (pnl_missing t Hmiss) as Hp.
  assert (Egp : gross_profit (t :: ts) = gross_profit ts).
  { unfold gross_profit. simpl. rewrite Hp. reflexivity. }
  assert (Egl : gross_loss (t :: ts) = gross_loss ts).
  { unfold gross_loss. simpl. rewrite Hp. reflexivity. }
  split; [exact Egp|]. split; [exact Egl|]. split.
  - intro Hne. unfold calculate_profit_factor. cbn [trades].
    rewrite Egp, Egl. destruct ts; [congruence | reflexivity].
  - unfold calculate_win_rate. cbn [trades]. simpl filter. rewrite Hp.
    replace (Qltb 0 0) with false by reflexivity.
    set (f := fun t0 => Qltb 0 (pnl t0)).
    destruct ts as [|t' ts'] eqn:E.
    + simpl. unfold Qle. simpl. lia.
    + rewrite <- E. assert (Hn : (0 < length ts)%nat) by (rewrite E; simpl; lia).
      clear E.
      pose proof (Qnat_pos _ Hn) as Hpos.
      assert (Hw : 0 <= inject_Z (Z.of_nat (length (filter f ts)))).
      { change 0 with (inject_Z 0). rewrite <- Zle_Qle. lia. }
      assert (En : inject_Z (Z.of_nat (length (t :: ts)))
                   == inject_Z (Z.of_nat (length ts)) + 1).
      { simpl length. rewrite Nat2Z.inj_succ, <- Z.add_1_r, inject_Z_plus.
        reflexivity. }
      rewrite En.
      set (w := inject_Z (Z.of_nat (length (filter f ts)))) in *.
      set (n := inject_Z (Z.of_nat (length ts))) in *.
      assert (H : w / (n + 1) <= w / n).
      { apply Qle_shift_div_l; [lra|].
        assert (E1 : w / (n + 1) * n == (w * n) / (n + 1)) by (field; lra).
        rewrite E1. apply Qle_shift_div_r; [lra|]. nra. }
      lra.
Qed.

Lemma trade_without_pnl_witness :
  gross_profit ([("size"%string, 3)] :: trades Samples.one_losing_trade)
  = gross_profit (trades Samples.one_losing_trade)
  /\ gross_loss ([("size"%string, 3)] :: trades Samples.one_losing_trade)
     = gross_loss (trades Samples.one_losing_trade)
  /\ (trades Samples.one_losing_trade <> [] ->
      calculate_profit_factor
        (mkAnalyzer [] ([("size"%string, 3)] :: trades Samples.one_losing_trade) 0)
      = calculate_profit_factor
          (mkAnalyzer [] (trades Samples.one_losing_trade) 0))
  /\ calculate_win_rate
       (mkAnalyzer [] ([("size"%string, 3)] :: trades Samples.one_losing_trade) 0)
     <= calculate_win_rate (mkAnalyzer [] (trades Samples.one_losing_trade) 0).
Proof.
  apply (trade_without_pnl [("size"%string, 3)] []
           (trades Samples.one_losing_trade) 0).
  reflexivity.
Defined.

(** X3.  For trades whose pnl is 0 or of a magnitude between 2^-250 and
    2^250 (no sum overflows), the profit factor is never negative, NaN or
    -infinity: it is +infinity or a finite number that is at least 0, and
    when the gross loss is positive it is the finite quotient
    gross_profit / gross_loss. *)
Theorem profit_factor_range (self : analyzer) :
  forallb (fun t => float_safeb (pnl t)) (trades self) = true ->
  (calculate_profit_factor self = PInf
   \/ exists q, calculate_profit_factor self = Num q /\ 0 <= q)
  /\ (0 < gross_loss (trades self) ->
      exists q, calculate_profit_factor self = Num q
                /\ q == gross_profit (trades self) / gross_loss (trades self)).
Proof.
  intros _.
  pose proof (gross_profit_nonneg (trades self)) as Hgp.
  pose proof (gross_loss_nonneg (trades self)) as Hgl.
  unfold calculate_profit_factor.
  destruct (trades self) as [|t ts] eqn:E.
  - split.
    + right. exists 0. split; [reflexivity | lra].
    + intro H. exfalso. revert H. unfold gross_loss. simpl. unfold Qlt. simpl. lia.
  - rewrite <- E in *. clear E t ts.
    set (gp := gross_profit (trades self)) in *.
    set (gl := gross_loss (trades self)) in *.
    destruct (Qzerob gl) eqn:Ez; reflect_Q.
    + split.
      * destruct (Qzerob gp); [right; exists 0; split; [reflexivity|lra] | now left].
      * intro H. lra.
    + assert (Hpos : 0 < gl) by lra.
      assert (Hq : 0 <= gp / gl) by (apply Qle_shift_div_l; lra).
      split.
      * right. exists (gp / gl). now split.
      * intros _. exists (gp / gl). split; reflexivity.
Qed.

Lemma profit_factor_range_witness :
  (calculate_profit_factor Samples.won_and_lost = PInf
   \/ exists q, calculate_profit_factor Samples.won_and_lost = Num q /\ 0 <= q)
  /\ (0 < gross_loss (trades Samples.won_and_lost) ->
      exists q, calculate_profit_factor Samples.won_and_lost = Num q
                /\ q == gross_profit (trades Samples.won_and_lost)
                        / gross_loss (trades Samples.won_and_lost)).
Proof.
  apply (profit_factor_range Samples.won_and_lost).
  vm_compute. reflexivity.
Defined.

End WinRate.

Module DurationFacts.
Import Pandas PerformanceAnalyzer DrawdownFacts.

Lemma fdiv_Num (a b : Q) : ~ b == 0 -> fdiv (Num a) (Num b) = Num (a / b).
Proof. intro H. apply Qzerob_neq in H. simpl. now rewrite H. Qed.

(** The value of the maximum drawdown of a Series that starts positive. *)
Lemma max_drawdown_value (self : analyzer) :
  starts_positive (returns self) ->
  exists q,
    calculate_max_drawdown self = Num q
    /\ q <= 0
    /\ (q == 0 <-> Sorted Qle (cumprod (returns self))).
Proof.
  destruct self as [rs ts rf]. unfold calculate_max_drawdown. cbn [returns].
  destruct rs as [|first [|second rest]]; intro Hpos.
  - exists 0. simpl. repeat split; auto; lra.
  - exists 0. simpl. repeat split; auto; lra.
  - cbn [length Nat.ltb Nat.leb].
    change (cumprod (first :: second :: rest))
      with (first :: cumprod_from first (second :: rest)).
    destruct (gaps_all first (cumprod_from first (second :: rest)) Hpos)
      as [d0 [ds [Eds [Hall Hiff]]]].
    rewrite Eds.
    destruct (series_min_finite d0 ds) as [q [Eq [Hlow Hin]]].
    rewrite Eq. exists (q * 100). split; [reflexivity|].
    apply Exists_exists in Hin. destruct Hin as [d [Hd Hqd]].
    rewrite Forall_forall in Hall, Hlow.
    pose proof (Hall d Hd) as Hd0. cbv beta in Hd0.
    split; [lra|]. rewrite <- Hiff. split.
    + intro H. rewrite Forall_forall. intros x Hx.
      specialize (Hall x Hx). specialize (Hlow x Hx). cbv beta in *. lra.
    + intro H. rewrite Forall_forall in H. specialize (H d Hd).
      cbv beta in H. lra.
Qed.

Lemma longest_run_bounds (flags : list bool) :
  forall c b, (0 <= c -> 0 <= b ->
  b <= longest_run flags c b
  /\ longest_run flags c b <= Z.max b (c + Z.of_nat (length flags)))%Z.
Proof.
  induction flags as [|f flags IH]; intros c b Hc Hb; simpl longest_run.
  - simpl. lia.
  - cbn [length]. rewrite Nat2Z.inj_succ. destruct f.
    + destruct (IH (c + 1)%Z (Z.max b (c + 1))) as [H1 H2]; lia.
    + destruct (IH 0%Z b) as [H1 H2]; lia.
Qed.

Lemma longest_run_zero (flags : list bool) :
  forall c b, (0 <= c -> 0 <= b ->
  (longest_run flags c b = 0
   <-> b = 0 /\ Forall (fun f => f = false) flags))%Z.
Proof.
  induction flags as [|f flags IH]; intros c b Hc Hb; simpl longest_run.
  - split; [intro H; split; [assumption | constructor] | now intros [H _]].
  - destruct f.
    + pose proof (longest_run_bounds flags (c + 1) (Z.max b (c + 1))) as Hbd.
      split.
      * intro H. destruct Hbd as [H1 _]; lia.
      * intros [_ H]. inversion H; discriminate.
    + rewrite (IH 0%Z b) by lia. split.
      * intros [H1 H2]. split; [assumption | now constructor].
      * intros [H1 H2]. split; [assumption | now inversion H2].
Qed.

(** The flags "below the running maximum" are all false exactly when the
    Series never falls. *)
Lemma flags_from (s : list Q) :
  forall m,
    length (series_lt s (expanding_max_from m s)) = length s
    /\ (Forall (fun f => f = false) (series_lt s (expanding_max_from m s))
        <-> Sorted Qle (m :: s)).
Proof.
  induction s as [|x rest IH]; intro m; simpl.
  - split; [reflexivity|]. split; auto.
  - destruct (IH (Qmax m x)) as [Hlen Hiff]. split; [now rewrite Hlen|].
    rewrite Sorted_Qle_cons. split.
    + intro H. inversion H as [|f fs Hf Hfs]; subst.
      apply Qltb_ge in Hf. apply Hiff in Hfs.
      destruct (Q.max_spec m x) as [[Hlt E]|[Hge E]].
      * split; [lra|]. apply Sorted_Qle_head with (Qmax m x); assumption.
      * assert (x == m) by lra.
        split; [lra|]. apply Sorted_Qle_head with (Qmax m x); [lra|assumption].
    + intros [Hmx Hs].
      assert (E : Qmax m x == x) by (apply Q.max_r; assumption).
      constructor.
      * apply Qltb_ge. lra.
      * apply Hiff. apply Sorted_Qle_head with x; [lra|assumption].
Qed.

Lemma cumprod_from_length (s : list Q) :
  forall a, length (cumprod_from a s) = length s.
Proof.
  induction s as [|x s IH]; intro a; simpl; [reflexivity | now rewrite IH].
Qed.

Lemma duration_value (self : analyzer) :
  (0 <= calculate_max_drawdown_duration self
   /\ calculate_max_drawdown_duration self
      <= Z.max 0 (Z.of_nat (length (returns self)) - 1))%Z
  /\ (calculate_max_drawdown_duration self = 0%Z
      <-> Sorted Qle (cumprod (returns self))).
Proof.
  unfold calculate_max_drawdown_duration.
  destruct (returns self) as [|first [|second rest]].
  - simpl. repeat split; auto; lia.
  - simpl. repeat split; auto; lia.
  - cbn [length Nat.ltb Nat.leb].
    change (cumprod (first :: second :: rest))
      with (first :: cumprod_from first (second :: rest)).
    set (ct := cumprod_from first (second :: rest)).
    change (expanding_max (first :: ct))
      with (first :: expanding_max_from first ct).
    cbn [series_lt].
    assert (E0 : Qltb first first = false) by (apply Qltb_ge; lra).
    rewrite E0. cbn [longest_run].
    destruct (flags_from ct first) as [Hlen Hiff].
    pose proof (longest_run_bounds (series_lt ct (expanding_max_from first ct))
                                   0 0 (Z.le_refl 0) (Z.le_refl 0)) as [H1 H2].
    rewrite Hlen in H2.
    assert (Hct : length ct = S (length rest)).
    { unfold ct. now rewrite cumprod_from_length. }
    split; [split; [lia|]|].
    + rewrite Hct in H2. rewrite !Nat2Z.inj_succ. lia.
    + rewrite longest_run_zero by lia. rewrite <- Hiff. tauto.
Qed.

End DurationFacts.

Section Duration.
Import Pandas PerformanceAnalyzer DurationFacts.

(** X4.  For a returns Series of N points whose cumulative products are 0
    or of a magnitude between 2^-250 and 2^250 (the running product
    neither overflows nor underflows), the drawdown duration is between 0
    and N - 1, and it is 0 exactly when the cumulative product of the
    Series is non-decreasing at every step. *)
Theorem drawdown_duration_zero_iff (self : analyzer) :
  forallb float_safeb (cumprod (returns self)) = true ->
  (0 <= calculate_max_drawdown_duration self
   /\ calculate_max_drawdown_duration self
      <= Z.max 0 (Z.of_nat (length (returns self)) - 1))%Z
  /\ (calculate_max_drawdown_duration self = 0%Z
      <-> Sorted Qle (cumprod (returns self))).
Proof. intros _. exact (duration_value self). Qed.

Lemma drawdown_duration_zero_iff_witness :
  (0 <= calculate_max_drawdown_duration Samples.rise_then_dip
   /\ calculate_max_drawdown_duration Samples.rise_then_dip
      <= Z.max 0 (Z.of_nat (length (returns Samples.rise_then_dip)) - 1))%Z
  /\ (calculate_max_drawdown_duration Samples.rise_then_dip = 0%Z
      <-> Sorted Qle (cumprod (returns Samples.rise_then_dip))).
Proof.
  apply (drawdown_duration_zero_iff Samples.rise_then_dip).
  vm_compute. reflexivity.
Defined.

(** X5.  For a returns Series whose first entry is positive and whose
    cumulative products are 0 or of a magnitude between 2^-250 and 2^250
    (the running product neither overflows nor underflows), the two
    drawdown figures agree on whether there was a drawdown: the maximum
    drawdown is 0 exactly when the drawdown duration is 0. *)
Theorem drawdown_figures_agree (self : analyzer) :
  starts_positive (returns self) ->
  forallb float_safeb (cumprod (returns self)) = true ->
  (is_zero (calculate_max_drawdown self)
   <-> calculate_max_drawdown_duration self = 0%Z).
Proof.
  intros Hpos _.
  destruct (max_drawdown_value self Hpos) as [q [Eq [_ Hq]]].
  destruct (duration_value self) as [_ Hd].
  rewrite Eq, Hd. simpl. exact Hq.
Qed.

Lemma drawdown_figures_agree_witness :
  is_zero (calculate_max_drawdown Samples.rise_then_dip)
  <-> calculate_max_drawdown_duration Samples.rise_then_dip = 0%Z.
Proof.
  apply (drawdown_figures_agree Samples.rise_then_dip).
  - simpl. reflexivity.
  - vm_compute. reflexivity.
Defined.

(** X7.  For a returns Series whose first entry is positive and whose
    entries and cumulative products are 0 or of a magnitude between 2^-250
    and 2^250 (no product, difference or quotient overflows or
    underflows), the recovery factor is a finite number: 0 when the
    maximum drawdown is 0, and otherwise the total return divided by the
    size of the maximum drawdown, so that it has the sign of the total
    return. *)
Theorem recovery_factor_finite (self : analyzer) :
  starts_positive (returns self) ->
  forallb float_safeb (returns self) = true ->
  forallb float_safeb (cumprod (returns self)) = true ->
  exists r q,
    calculate_recovery_factor self = Num r
    /\ calculate_max_drawdown self = Num q
    /\ (q == 0 -> r == 0)
    /\ (~ q == 0 -> r == calculate_total_return self / (- q)
                    /\ (0 < r <-> 0 < calculate_total_return self)).
Proof.
  intros Hpos _ _.
  destruct (max_drawdown_value self Hpos) as [q [Eq [Hle _]]].
  unfold calculate_recovery_factor. rewrite Eq.
  rewrite (fdiv_Num q 100) by lra.
  change (feq (Num (q / 100)) (Num 0)) with (Qeq_bool (q / 100) 0).
  destruct (Qeq_bool (q / 100) 0) eqn:E.
  - exists 0, q. split; [reflexivity|]. split; [reflexivity|].
    apply Qeq_bool_iff in E.
    assert (Hq : q == 0).
    { assert (E1 : q == q / 100 * 100) by field. rewrite E1, E. ring. }
    split; [reflexivity|]. intro H. contradiction.
  - assert (Hq : ~ q == 0).
    { intro H. apply Qeq_bool_neq in E. apply E. rewrite H. reflexivity. }
    assert (Hneg : q < 0) by lra.
    assert (Habs : Qabs (q / 100) == - q / 100).
    { rewrite Qabs_neg; [field|]. apply Qle_shift_div_r; lra. }
    assert (Hz : ~ Qabs (q / 100) == 0).
    { rewrite Habs. intro H.
      assert (E1 : - q == - q / 100 * 100) by field. lra. }
    change (fabs (Num (q / 100))) with (Num (Qabs (q / 100))).
    rewrite fdiv_Num by exact Hz.
    exists (calculate_total_return self / 100 / Qabs (q / 100)), q.
    split; [reflexivity|]. split; [reflexivity|].
    split; [intro H; contradiction|]. intros _.
    assert (Er : calculate_total_return self / 100 / Qabs (q / 100)
                 == calculate_total_return self / (- q)).
    { rewrite Habs. field. lra. }
    split; [exact Er|]. rewrite Er. split; intro H.
    + assert (E1 : calculate_total_return self
                   == calculate_total_return self / - q * - q) by (field; lra).
      rewrite E1. nra.
    + apply Qlt_shift_div_l; lra.
Qed.

Lemma recovery_factor_finite_witness :
  exists r q,
    calculate_recovery_factor Samples.rise_then_dip = Num r
    /\ calculate_max_drawdown Samples.rise_then_dip = Num q
    /\ (q == 0 -> r == 0)
    /\ (~ q == 0 -> r == calculate_total_return Samples.rise_then_dip / (- q)
                    /\ (0 < r <-> 0 < calculate_total_return Samples.rise_then_dip)).
Proof.
  apply (recovery_factor_finite Samples.rise_then_dip).
  - simpl. reflexivity.
  - vm_compute. reflexivity.
  - vm_compute. reflexivity.
Defined.

End Duration.

Module DailyFacts.
Import Pandas PerformanceAnalyzer DrawdownFacts DurationFacts.

(** Daily returns of a Series of positive numbers are finite and above
    -1. *)
Lemma pct_change_positive (s : list Q) :
  forall prev, 0 < prev -> Forall (fun x => 0 < x) s ->
  exists ds,
    pct_change_from prev s = map Num ds
    /\ length ds = length s
    /\ Forall (fun d => - (1) < d) ds.
Proof.
  induction s as [|x rest IH]; intros prev Hp Hs.
  - exists []. repeat split; constructor.
  - inversion Hs as [|y l Hx Hrest]; subst.
    destruct (IH x Hx Hrest) as [ds [E [Hlen Hall]]].
    exists (x / prev + - (1) :: ds). cbn [pct_change_from].
    rewrite E, fdiv_Num by lra. split; [reflexivity|].
    split; [simpl; now rewrite Hlen|].
    constructor; [|assumption].
    assert (0 < x / prev) by (apply Qlt_shift_div_l; lra). lra.
Qed.

(** Daily returns of a positive Series that never falls are finite and
    not negative. *)
Lemma pct_change_rising (s : list Q) :
  forall prev, 0 < prev -> Sorted Qle (prev :: s) ->
  exists ds,
    pct_change_from prev s = map Num ds /\ Forall (fun d => 0 <= d) ds.
Proof.
  induction s as [|x rest IH]; intros prev Hp Hs.
  - exists []. split; constructor.
  - apply Sorted_Qle_cons in Hs. destruct Hs as [Hle Hs].
    assert (Hx : 0 < x) by lra.
    destruct (IH x Hx Hs) as [ds [E Hall]].
    exists (x / prev + - (1) :: ds). cbn [pct_change_from].
    rewrite E, fdiv_Num by lra. split; [reflexivity|].
    constructor; [|assumption].
    assert (1 <= x / prev) by (apply Qle_shift_div_l; lra). lra.
Qed.

Lemma fold_fmax_Num (ds : list Q) :
  forall a, exists q,
    fold_left fmax (map Num ds) (Num a) = Num q
    /\ a <= q /\ Forall (fun d => d <= q) ds
    /\ (q == a \/ Exists (fun d => q == d) ds).
Proof.
  induction ds as [|d ds IH]; intro a; simpl.
  - exists a. repeat split; auto; try lra; try (left; reflexivity).
  - unfold fmax at 2. simpl.
    destruct (Qltb a d) eqn:E; reflect_Q.
    + destruct (IH d) as [q [Eq [Hle [Hall Hin]]]].
      exists q. rewrite Eq. repeat split; auto; try lra.
      right. destruct Hin; [now constructor | now constructor 2].
    + destruct (IH a) as [q [Eq [Hle [Hall Hin]]]].
      exists q. rewrite Eq. repeat split; auto.
      * constructor; [lra|assumption].
      * destruct Hin; [now left | right; now constructor 2].
Qed.

Lemma series_max_finite (d0 : Q) (ds : list Q) :
  exists q,
    series_max (map Num (d0 :: ds)) = Num q
    /\ Forall (fun d => d <= q) (d0 :: ds).
Proof.
  unfold series_max. rewrite dropna_Num.
  destruct (fold_fmax_Num ds d0) as [q [Eq [Hle [Hall _]]]].
  exists q. split; [exact Eq | now constructor].
Qed.

Lemma no_downside (ds : list Q) :
  Forall (fun d => 0 <= d) ds ->
  filter (fun r => flt r (Num 0)) (map Num ds) = [].
Proof.
  induction 1 as [|d ds Hd Hds IH]; simpl; [reflexivity|].
  assert (E : Qltb d 0 = false) by (apply Qltb_ge; exact Hd).
  rewrite E. exact IH.
Qed.

End DailyFacts.

Section DailyReturns.
Import Pandas PerformanceAnalyzer DrawdownFacts DurationFacts DailyFacts.
Variable sqrtQ : Q -> Q.

(** X6.  With fewer than two points in the returns Series every risk
    figure of [calculate_all_metrics] is 0: Sharpe, Sortino and Calmar
    ratios, maximum drawdown and its duration, recovery factor, volatility,
    best day and worst day. *)
Theorem short_series_metrics (self : analyzer) :
  (length (returns self) < 2)%nat ->
  m_sharpe_ratio (calculate_all_metrics sqrtQ self) = Num 0
  /\ m_sortino_ratio (calculate_all_metrics sqrtQ self) = Num 0
  /\ m_calmar_ratio (calculate_all_metrics sqrtQ self) = RNum 0%R
  /\ m_max_drawdown (calculate_all_metrics sqrtQ self) = Num 0
  /\ m_drawdown_duration (calculate_all_metrics sqrtQ self) = 0%Z
  /\ m_recovery_factor (calculate_all_metrics sqrtQ self) = Num 0
  /\ m_volatility (calculate_all_metrics sqrtQ self) = Num 0
  /\ m_best_day (calculate_all_metrics sqrtQ self) = Num 0
  /\ m_worst_day (calculate_all_metrics sqrtQ self) = Num 0.
Proof.
  intro H. apply Nat.ltb_lt in H.
  assert (Hdd : calculate_max_drawdown self = Num 0).
  { unfold calculate_max_drawdown. now rewrite H. }
  cbn [calculate_all_metrics m_sharpe_ratio m_sortino_ratio m_calmar_ratio
       m_max_drawdown m_drawdown_duration m_recovery_factor m_volatility
       m_best_day m_worst_day].
  unfold calculate_sharpe_ratio, calculate_sortino_ratio,
    calculate_calmar_ratio, calculate_max_drawdown_duration,
    calculate_recovery_factor, calculate_volatility, calculate_best_day,
    calculate_worst_day, daily_returns.
  rewrite Hdd, H. repeat split; reflexivity.
Qed.

(** X8.  For a returns Series of at least two positive numbers of a
    magnitude between 2^-250 and 2^250 (no quotient of two of them
    overflows), the worst and the best day are finite, the worst day is
    not below -100 (percent) and not above the best day. *)
Theorem best_and_worst_day (self : analyzer) :
  Forall (fun x => 0 < x) (returns self) ->
  forallb float_safeb (returns self) = true ->
  (2 <= length (returns self))%nat ->
  exists w b,
    calculate_worst_day self = Num w
    /\ calculate_best_day self = Num b
    /\ - (100) <= w /\ w <= b.
Proof.
  intros Hpos _ Hlen.
  unfold calculate_worst_day, calculate_best_day, daily_returns.
  destruct (returns self) as [|first [|second rest]] eqn:E;
    try (simpl in Hlen; lia).
  cbn [length Nat.ltb Nat.leb].
  inversion Hpos as [|x l Hfirst Hrest]; subst.
  destruct (pct_change_positive (second :: rest) first Hfirst Hrest)
    as [ds [Eds [Hl Hall]]].
  destruct ds as [|d0 ds]; [simpl in Hl; discriminate|].
  change (pct_change (first :: second :: rest))
    with (NaN :: pct_change_from first (second :: rest)).
  rewrite Eds.
  change (dropna (NaN :: map Num (d0 :: ds))) with (dropna (map Num (d0 :: ds))).
  rewrite dropna_Num.
  change (0 <? length (map Num (d0 :: ds)))%nat with true. cbv iota.
  destruct (series_min_finite d0 ds) as [w [Ew [Hlow Hin]]].
  destruct (series_max_finite d0 ds) as [b [Eb Hhigh]].
  rewrite Ew, Eb. exists (w * 100), (b * 100).
  split; [reflexivity|]. split; [reflexivity|].
  apply Exists_exists in Hin. destruct Hin as [d [Hd Hwd]].
  rewrite Forall_forall in Hall. specialize (Hall d Hd). cbv beta in Hall.
  inversion Hlow as [|? ? Hw0 _]; subst. inversion Hhigh as [|? ? Hb0 _]; subst.
  split; lra.
Qed.

Lemma best_and_worst_day_witness :
  exists w b,
    calculate_worst_day Samples.rise_then_dip = Num w
    /\ calculate_best_day Samples.rise_then_dip = Num b
    /\ - (100) <= w /\ w <= b.
Proof.
  apply (best_and_worst_day Samples.rise_then_dip).
  - unfold Samples.rise_then_dip. cbn [returns].
    repeat constructor.
  - vm_compute. reflexivity.
  - simpl. lia.
Defined.

(** X9.  For a returns Series that starts positive and never falls, no
    daily return is negative and the Sortino ratio is 0. *)
Theorem sortino_of_rising_series (self : analyzer) :
  starts_positive (returns self) -> Sorted Qle (returns self) ->
  calculate_sortino_ratio sqrtQ self = Num 0.
Proof.
  intros Hpos Hs. unfold calculate_sortino_ratio, daily_returns.
  destruct (returns self) as [|first [|second rest]]; try reflexivity.
  cbn [length Nat.ltb Nat.leb].
  destruct (pct_change_rising (second :: rest) first Hpos Hs) as [ds [E Hall]].
  change (pct_change (first :: second :: rest))
    with (NaN :: pct_change_from first (second :: rest)).
  rewrite E.
  change (dropna (NaN :: map Num ds)) with (dropna (map Num ds)).
  rewrite dropna_Num. cbv zeta.
  destruct (length (map Num ds) =? 0)%nat; [reflexivity|].
  rewrite (no_downside ds Hall). reflexivity.
Qed.

(** X10.  For a returns Series of exactly two points whose first point is
    not 0 there is a single daily return; its sample deviation is NaN, and
    so are the Sharpe ratio and the volatility. *)
Theorem two_point_series (a b : Q) (ts : list trade) (rf : Q) :
  ~ a == 0 ->
  calculate_sharpe_ratio sqrtQ (mkAnalyzer [a; b] ts rf) = NaN
  /\ calculate_volatility sqrtQ (mkAnalyzer [a; b] ts rf) = NaN.
Proof.
  intro Ha.
  unfold calculate_sharpe_ratio, calculate_volatility, daily_returns.
  cbn [returns length Nat.ltb Nat.leb].
  change (pct_change [a; b])
    with [NaN; fsub (fdiv (Num b) (Num a)) (Num 1)].
  rewrite fdiv_Num by exact Ha.
  change (dropna [NaN; fsub (Num (b / a)) (Num 1)])
    with [Num (b / a + - (1))].
  cbn [length Nat.eqb]. rewrite std_single. cbn [orb feq].
  rewrite fdiv_nan_r. split; reflexivity.
Qed.

End DailyReturns.

Section DailyReturnsWitnesses.
Import Pandas PerformanceAnalyzer.

Lemma short_series_metrics_witness :
  m_sharpe_ratio (calculate_all_metrics Samples.floor_sqrt Samples.one_point) = Num 0
  /\ m_sortino_ratio (calculate_all_metrics Samples.floor_sqrt Samples.one_point) = Num 0
  /\ m_calmar_ratio (calculate_all_metrics Samples.floor_sqrt Samples.one_point) = RNum 0%R
  /\ m_max_drawdown (calculate_all_metrics Samples.floor_sqrt Samples.one_point) = Num 0
  /\ m_drawdown_duration (calculate_all_metrics Samples.floor_sqrt Samples.one_point) = 0%Z
  /\ m_recovery_factor (calculate_all_metrics Samples.floor_sqrt Samples.one_point) = Num 0
  /\ m_volatility (calculate_all_metrics Samples.floor_sqrt Samples.one_point) = Num 0
  /\ m_best_day (calculate_all_metrics Samples.floor_sqrt Samples.one_point) = Num 0
  /\ m_worst_day (calculate_all_metrics Samples.floor_sqrt Samples.one_point) = Num 0.
Proof.
  apply (short_series_metrics Samples.floor_sqrt Samples.one_point). simpl. lia.
Defined.

Lemma sortino_of_rising_series_witness :
  calculate_sortino_ratio Samples.floor_sqrt Samples.two_points = Num 0.
Proof.
  apply (sortino_of_rising_series Samples.floor_sqrt Samples.two_points).
  - simpl. reflexivity.
  - unfold Samples.two_points. cbn [returns]. repeat constructor.
    unfold Qle. simpl. lia.
Defined.

Lemma two_point_series_witness :
  calculate_sharpe_ratio Samples.floor_sqrt Samples.two_points = NaN
  /\ calculate_volatility Samples.floor_sqrt Samples.two_points = NaN.
Proof.
  apply (two_point_series Samples.floor_sqrt 1 (11 # 10) [] Config.RISK_FREE_RATE).
  discriminate.
Defined.

End DailyReturnsWitnesses.

(** * Further properties of the engine *)

Module EngineFacts.
Import BacktestEngine.

Lemma has_column_In (data : DataFrame) (col : string) :
  has_column data col = true <-> In col (columns data).
Proof.
  unfold has_column. rewrite existsb_exists. split.
  - intros [c [Hin Heq]]. apply String.eqb_eq in Heq. now subst.
  - intro H. exists col. split; [assumption | apply String.eqb_refl].
Qed.

Lemma required_cols_incl (data : DataFrame) :
  forallb (has_column data) required_cols = true
  <-> incl required_cols (columns data).
Proof.
  rewrite forallb_forall. unfold incl.
  split; intros H c Hc; apply has_column_In, H, Hc.
Qed.

End EngineFacts.

Section Engine.
Import BacktestEngine EngineFacts.
Variable cerebro_run : list cerebro_call -> outcome strat.

(** With the five columns and no bar, [run] raises IndexError after the
    two broker settings. *)
Lemma run_empty_index self cls data params :
  forallb (has_column data) required_cols = true ->
  index data = [] ->
  run cerebro_run self cls data params
  = (Raise IndexError,
     [SetCash (initial_capital self); SetCommission (commission self)]).
Proof.
  intros H Hi. unfold run, bind, call, _create_data_feed.
  unfold required_cols in H. simpl in H. simpl. rewrite H. simpl.
  rewrite Hi. reflexivity.
Qed.

(** X11.  [_create_data_feed] makes no call on the cerebro object.  It
    raises ValueError exactly when one of Open, High, Low, Close, Volume is
    not among the columns (other columns and the column order do not
    matter), IndexError exactly when the five are there and the DataFrame
    has no row, and otherwise returns a feed from the first to the last
    index value. *)
Theorem create_data_feed_cases (data : DataFrame) (calls : list cerebro_call) :
  snd (_create_data_feed data calls) = calls
  /\ (fst (_create_data_feed data calls) = Raise ValueError
      <-> ~ incl required_cols (columns data))
  /\ (fst (_create_data_feed data calls) = Raise IndexError
      <-> incl required_cols (columns data) /\ index data = [])
  /\ (forall first rest,
         incl required_cols (columns data) -> index data = first :: rest ->
         fst (_create_data_feed data calls)
         = Return (mkFeed data first (last (first :: rest) first))).
Proof.
  unfold _create_data_feed.
  destruct (forallb (has_column data) required_cols) eqn:E.
  - apply required_cols_incl in E. simpl negb. cbv iota.
    destruct (index data) as [|first rest] eqn:Ei.
    + unfold raise. simpl.
      repeat split; try discriminate; try tauto.
    + unfold ret. simpl fst. simpl snd.
      repeat split; try discriminate; try tauto;
        try (intros [_ H]; discriminate).
      intros f r _ H. injection H as <- <-. reflexivity.
  - assert (Hn : ~ incl required_cols (columns data)).
    { intro H. apply required_cols_incl in H. congruence. }
    unfold raise. simpl.
    repeat split; try discriminate; try tauto.
Qed.

(** X12.  [run] calls [cerebro.run()] at most once, as its last call.
    When it returns results, they are the results extracted from what
    [cerebro.run()] returned on the calls made before it; when it raises,
    either nothing was run (ValueError or IndexError from the data feed) or
    the exception is the one [cerebro.run()] raised. *)
Theorem run_outcome self cls data params :
  let r := run cerebro_run self cls data params in
  (length (filter is_run (snd r)) <= 1)%nat
  /\ (In Run (snd r) -> last (snd r) (SetCash 0) = Run)
  /\ (forall res, fst r = Return res ->
        exists st, cerebro_run (removelast (snd r)) = Return st
                   /\ res = _extract_results self st)
  /\ (forall e, fst r = Raise e ->
        (~ In Run (snd r) /\ (e = ValueError \/ e = IndexError))
        \/ cerebro_run (removelast (snd r)) = Raise e).
Proof.
  intro r. subst r.
  destruct (forallb (has_column data) required_cols) eqn:E.
  - destruct (index data) as [|first rest] eqn:Ei.
    + rewrite (run_empty_index _ _ _ _ E Ei). simpl.
      repeat split; try lia; try discriminate.
      * intros [H|[H|[]]]; discriminate.
      * intros e H. injection H as <-. left. split; [|now right].
        intros [H|[H|[]]]; discriminate.
    + rewrite (run_starts cerebro_run _ _ _ _ first rest E Ei).
      cbv zeta. cbn [fst snd].
      rewrite removelast_last. simpl length. simpl last.
      split; [lia|]. split; [reflexivity|]. split.
      * intros res H. destruct (cerebro_run _) as [e|st]; [discriminate|].
        injection H as <-. exists st. split; reflexivity.
      * intros e H. right. destruct (cerebro_run _) as [e'|st]; [|discriminate].
        injection H as <-. reflexivity.
  - rewrite (run_missing_column cerebro_run _ _ _ _ E). simpl.
    repeat split; try lia; try discriminate.
    + intros [H|[H|[]]]; discriminate.
    + intros e H. injection H as <-. left. split; [|now left].
      intros [H|[H|[]]]; discriminate.
Qed.

End Engine.

(** * Further properties of the strategies *)

Module StrategyFacts.
Import BaseStrategy.

Lemma buy_signal_position (s : strategy) :
  position (buy_signal s) = position s.
Proof. unfold buy_signal. destruct (in_position s); reflexivity. Qed.

Lemma sell_signal_position (s : strategy) :
  position (sell_signal s) = position s.
Proof. unfold sell_signal. destruct (in_position s); reflexivity. Qed.

Lemma signal_position (sd : side) (s : strategy) :
  position (signal sd s) = position s.
Proof. destruct sd; [apply buy_signal_position | apply sell_signal_position]. Qed.

Lemma signal_in_position (sd : side) (s : strategy) :
  in_position (signal sd s) = in_position s.
Proof. unfold in_position. now rewrite signal_position. Qed.

(** What one signal does to the broker. *)
Lemma signal_broker (sd : side) (s : strategy) :
  broker (signal sd s)
  = broker s ++ (if match sd with
                    | Buy => negb (in_position s)
                    | Sell => in_position s
                    end
                 then [new_order sd] else []).
Proof.
  destruct sd; unfold signal, buy_signal, sell_signal;
    destruct (in_position s); simpl; now rewrite ?app_nil_r.
Qed.

Lemma signal_counters (sd : side) (s : strategy) :
  trade_count (signal sd s) = trade_count s
  /\ winning_trades (signal sd s) = winning_trades s
  /\ losing_trades (signal sd s) = losing_trades s
  /\ buy_price (signal sd s) = buy_price s.
Proof.
  destruct sd; unfold signal, buy_signal, sell_signal;
    destruct (in_position s); simpl; repeat split.
Qed.

(** One notification. *)
Lemma notify_order_step (o : order) (s : strategy) :
  trade_count (notify_order o s)
  = (trade_count s + Z.of_nat (length (completed [o])))%Z
  /\ (winning_trades (notify_order o s) + losing_trades (notify_order o s)
      = winning_trades s + losing_trades s
        + Z.of_nat (length (completed_sells [o])))%Z
  /\ position (notify_order o s) = position s
  /\ broker (notify_order o s) = broker s
  /\ buy_price (notify_order o s)
     = match completed_buys [o] with
       | [] => buy_price s
       | b :: _ => Some (executed_price b)
       end.
Proof.
  unfold notify_order, completed_sells, completed_buys, completed, isbuy, issell.
  simpl filter.
  destruct (status o); simpl; try (repeat split; lia).
  destruct (order_side o); simpl.
  - repeat split; lia.
  - destruct (Qltb 0 _); simpl; repeat split; lia.
Qed.

Lemma completed_buys_single (o : order) :
  completed_buys [o] = [] \/ completed_buys [o] = [o].
Proof.
  unfold completed_buys, completed. simpl.
  destruct (status o); simpl; auto. destruct (isbuy o); auto.
Qed.

Lemma completed_buys_app (a b : list order) :
  completed_buys (a ++ b) = completed_buys a ++ completed_buys b.
Proof. unfold completed_buys, completed. now rewrite !filter_app. Qed.

End StrategyFacts.

Section SignalSequences.
Import BaseStrategy StrategyFacts.

(** X14.  Signals requested one after the other without a fill in between
    leave the position and the counters alone, and every signal that is
    valid for the position reaches the broker: while flat each BUY request
    submits a BUY order, also when one is already pending, and no SELL is
    submitted; while in position it is the other way round. *)
Theorem signals_without_fill (sds : list side) (s : strategy) :
  position (signals sds s) = position s
  /\ trade_count (signals sds s) = trade_count s
  /\ broker (signals sds s)
     = broker s
       ++ map new_order
            (filter (fun sd => match sd with
                               | Buy => negb (in_position s)
                               | Sell => in_position s
                               end) sds).
Proof.
  unfold signals. revert s.
  induction sds as [|sd sds IH]; intro s; simpl fold_left.
  - simpl. now rewrite app_nil_r.
  - destruct (IH (signal sd s)) as [Hp [Ht Hb]].
    rewrite Hp, Ht, Hb, signal_position, signal_broker, signal_in_position.
    destruct (signal_counters sd s) as [Hc _]. rewrite Hc.
    split; [reflexivity|]. split; [reflexivity|].
    simpl filter.
    destruct (match sd with Buy => negb (in_position s) | Sell => in_position s end);
      simpl; now rewrite <- app_assoc.
Qed.

(** X15.  After any sequence of order notifications, [trade_count] has
    grown by the number of completed orders and
    [winning_trades + losing_trades] by the number of completed SELL
    orders; position and broker are not touched.  Starting from a new
    strategy, [winning_trades + losing_trades] never exceeds
    [trade_count]. *)
Theorem notify_orders_counts (os : list order) (s : strategy) :
  trade_count (notify_orders os s)
  = (trade_count s + Z.of_nat (length (completed os)))%Z
  /\ (winning_trades (notify_orders os s) + losing_trades (notify_orders os s)
      = winning_trades s + losing_trades s
        + Z.of_nat (length (completed_sells os)))%Z
  /\ position (notify_orders os s) = position s
  /\ broker (notify_orders os s) = broker s
  /\ (winning_trades (notify_orders os init)
      + losing_trades (notify_orders os init)
      <= trade_count (notify_orders os init))%Z.
Proof.
  assert (H : forall os s,
    trade_count (notify_orders os s)
    = (trade_count s + Z.of_nat (length (completed os)))%Z
    /\ (winning_trades (notify_orders os s) + losing_trades (notify_orders os s)
        = winning_trades s + losing_trades s
          + Z.of_nat (length (completed_sells os)))%Z
    /\ position (notify_orders os s) = position s
    /\ broker (notify_orders os s) = broker s).
  { clear os s. unfold notify_orders.
    induction os as [|o os IH]; intro s; simpl fold_left.
    - simpl. repeat split; lia.
    - destruct (IH (notify_order o s)) as [H1 [H2 [H3 H4]]].
      destruct (notify_order_step o s) as [S1 [S2 [S3 [S4 _]]]].
      rewrite H1, H2, H3, H4, S1, S2, S3, S4.
      change (o :: os) with ([o] ++ os).
      unfold completed_sells, completed in *.
      rewrite !filter_app, !length_app, !Nat2Z.inj_add.
      repeat split; lia. }
  destruct (H os s) as [H1 [H2 [H3 H4]]].
  repeat split; try assumption.
  destruct (H os init) as [I1 [I2 _]]. rewrite I1, I2. simpl.
  pose proof (filter_length_le issell (completed os)).
  unfold completed_sells. lia.
Qed.

(** X16.  The recorded buy price is the fill price of the last completed
    BUY order notified so far; a completed SELL does not clear it. *)
Theorem buy_price_is_last_buy (os : list order) (s : strategy) :
  buy_price (notify_orders os s)
  = match rev (completed_buys os) with
    | [] => buy_price s
    | b :: _ => Some (executed_price b)
    end.
Proof.
  unfold notify_orders. revert s.
  induction os as [|o os IH]; intro s; simpl fold_left.
  - reflexivity.
  - rewrite IH.
    destruct (notify_order_step o s) as [_ [_ [_ [_ Hb]]]].
    change (o :: os) with ([o] ++ os).
    rewrite completed_buys_app, rev_app_distr.
    destruct (rev (completed_buys os)) as [|b l]; [|reflexivity].
    simpl app. rewrite Hb.
    destruct (completed_buys_single o) as [E1|E1]; rewrite E1; reflexivity.
Qed.

End SignalSequences.

Section Variants.
Import BaseStrategy Strategies StrategyFacts.

(** X17.  In every variant the BUY and the SELL condition of a bar are
    never both true, so the order in which [next] tests them does not
    change the outcome of any bar. *)
Theorem conditions_exclusive (b : bar) (s : strategy) :
  buy_condition b s && sell_condition b s = false.
Proof.
  destruct b; simpl;
    unfold MAcrossoverStrategy.buy_condition, MAcrossoverStrategy.sell_condition,
      RSIStrategy.buy_condition, RSIStrategy.sell_condition,
      BollingerBandsStrategy.buy_condition, BollingerBandsStrategy.sell_condition,
      MomentumStrategy.buy_condition, MomentumStrategy.sell_condition.
  - destruct (Qltb 0 crossover) eqn:E1; destruct (Qltb crossover 0) eqn:E2;
      try reflexivity. reflect_Q. lra.
  - destruct (in_position s); simpl; rewrite ?andb_false_r; reflexivity.
  - destruct (in_position s); simpl; rewrite ?andb_false_r; reflexivity.
  - destruct (in_position s); simpl; rewrite ?andb_false_r; reflexivity.
Qed.

(** X18.  [next] never changes the position itself and submits at most
    one order, which fits the position: a BUY order only while flat and a
    SELL order only while in position. *)
Theorem orders_fit_position (b : bar) (s : strategy) :
  position (fst (next b s)) = position s
  /\ (broker (fst (next b s)) = broker s
      \/ (in_position s = false
          /\ broker (fst (next b s)) = broker s ++ [new_order Buy])
      \/ (in_position s = true
          /\ broker (fst (next b s)) = broker s ++ [new_order Sell])).
Proof.
  pose proof (signal_broker Buy s) as Hb. pose proof (signal_broker Sell s) as Hs.
  pose proof (buy_signal_position s) as Pb.
  pose proof (sell_signal_position s) as Ps.
  cbn [signal] in Hb, Hs.
  destruct b; simpl;
    unfold MAcrossoverStrategy.next, RSIStrategy.next,
           BollingerBandsStrategy.next, MomentumStrategy.next; simpl;
    match goal with
    | |- context [if ?c then _ else if ?d then _ else _] =>
        destruct c; [|destruct d]
    end; simpl; rewrite ?Hb, ?Hs, ?Pb, ?Ps;
    (split; [reflexivity|]);
    destruct (in_position s); simpl; rewrite ?app_nil_r; auto.
Qed.

(** X19.  In the RSI, Bollinger and momentum variants a line is logged
    exactly when an order is submitted, and the line names the side of the
    order.  The moving-average variant logs its BUY line on every up-cross,
    also while a position is open and no order is submitted. *)
Theorem log_and_orders (b : bar) (s : strategy) :
  (is_ma b = false ->
   (snd (next b s) = [] /\ broker (fst (next b s)) = broker s)
   \/ exists sd, snd (next b s) = [sd]
                 /\ broker (fst (next b s)) = broker s ++ [new_order sd])
  /\ (forall crossover, 0 < crossover -> in_position s = true ->
      next (MA_bar crossover) s = (s, [Buy])).
Proof.
  split.
  - intro Hma. destruct b; [discriminate| | |]; simpl;
      unfold RSIStrategy.next, RSIStrategy.buy_condition, RSIStrategy.sell_condition,
        BollingerBandsStrategy.next, BollingerBandsStrategy.buy_condition,
        BollingerBandsStrategy.sell_condition,
        MomentumStrategy.next, MomentumStrategy.buy_condition,
        MomentumStrategy.sell_condition, buy_signal, sell_signal; simpl;
      destruct (in_position s); simpl; rewrite ?andb_false_r, ?andb_true_r; simpl;
      match goal with
      | |- context [if ?c then _ else _] => destruct c
      | |- _ => idtac
      end; simpl; try (left; split; reflexivity);
      try (right; eexists; split; reflexivity).
  - intros c Hc Hpos. simpl. unfold MAcrossoverStrategy.next,
      MAcrossoverStrategy.buy_condition, buy_signal.
    apply Qltb_lt in Hc. rewrite Hc, Hpos. reflexivity.
Qed.

(** X20.  With a band of width 0 (close equal to both bands) the
    Bollinger variant never holds: it buys when flat and sells when in
    position. *)
Theorem bollinger_zero_width (close : Q) (s : strategy) :
  (in_position s = false ->
   next (BB_bar close close close) s = (buy_signal s, [Buy])
   /\ broker (buy_signal s) = broker s ++ [new_order Buy])
  /\ (in_position s = true ->
      next (BB_bar close close close) s = (sell_signal s, [Sell])
      /\ broker (sell_signal s) = broker s ++ [new_order Sell]).
Proof.
  assert (E : Qle_bool close close = true) by (apply Qle_bool_iff; lra).
  simpl. unfold BollingerBandsStrategy.next,
    BollingerBandsStrategy.buy_condition, BollingerBandsStrategy.sell_condition.
  rewrite E. split; intro H; rewrite H; simpl.
  - split; [reflexivity|]. unfold buy_signal. rewrite H. reflexivity.
  - split; [reflexivity|]. unfold sell_signal. rewrite H. reflexivity.
Qed.

End Variants.

(** * Further properties of the command line and the plots *)

Section CommandLine.
Import Cli.

(** X21.  For every strategy name of the table [STRATEGIES], each key of
    the [strategy_params] dictionary built by [backtest] is a parameter
    declared by the class the name stands for; for 'bollinger_bands' the
    dictionary is empty, so that class always runs on its defaults. *)
Theorem strategy_params_declared
        (strategy : string) (cls : BacktestEngine.strategy_class)
        (fast_ma slow_ma rsi_period roc_period : Z) :
  dict_find strategy STRATEGIES = Some cls ->
  (forall key value,
      In (key, value)
         (strategy_params strategy fast_ma slow_ma rsi_period roc_period) ->
      In key (param_names cls))
  /\ (cls = BacktestEngine.BollingerBandsStrategy ->
      strategy_params strategy fast_ma slow_ma rsi_period roc_period = []).
Proof.
  unfold STRATEGIES, strategy_params. cbn [dict_find].
  rewrite !(String.eqb_sym _ strategy).
  destruct (String.eqb strategy "ma_crossover") eqn:E1.
  { intro H. injection H as <-. split; [|discriminate].
    intros key value [H|[H|[]]]; injection H as <- _; simpl; auto. }
  destruct (String.eqb strategy "rsi") eqn:E2.
  { intro H. injection H as <-. split; [|discriminate].
    intros key value [H|[]]; injection H as <- _; simpl; auto. }
  destruct (String.eqb strategy "bollinger_bands") eqn:E3.
  { intro H. injection H as <-.
    apply String.eqb_eq in E3. subst strategy. simpl.
    split; [intros key value [] | reflexivity]. }
  destruct (String.eqb strategy "momentum") eqn:E4; [|discriminate].
  intro H. injection H as <-. split; [|discriminate].
  intros key value [H|[]]; injection H as <- _; simpl; auto.
Qed.

Lemma strategy_params_declared_witness :
  (forall key value,
      In (key, value) (strategy_params "rsi" 10 30 21 10) ->
      In key (param_names BacktestEngine.RSIStrategy))
  /\ (BacktestEngine.RSIStrategy = BacktestEngine.BollingerBandsStrategy ->
      strategy_params "rsi" 10 30 21 10 = []).
Proof.
  apply (strategy_params_declared "rsi" BacktestEngine.RSIStrategy 10 30 21 10).
  reflexivity.
Defined.

End CommandLine.

Module PlotFacts.
Import Pandas DrawdownFacts DurationFacts.



End PlotFacts.

Section Plots.
Import Pandas Cli Visualization DrawdownFacts PlotFacts.






(** X25.  In [plot_strategy_analysis] the colour chosen for the exit
    marker of a trade is red exactly when its pnl is below 0, and then
    the colour of its shaded region is red too.  The two colours disagree, an orange marker on a red region,
    exactly when the pnl is NaN.  A trade without a ['pnl'] entry gets the
    orange marker and the green region.  The bar of the first daily
    return, which is NaN, is always red. *)
Theorem trade_colours (t : dict fl) :
  (exit_color t = red <-> flt (plotted_pnl t) (Num 0) = true)
  /\ (exit_color t = red -> region_color t = red)
  /\ (exit_color t = orange /\ region_color t = red <-> plotted_pnl t = NaN)
  /\ (dict_find "pnl" t = None -> exit_color t = orange /\ region_color t = green)
  /\ (forall closes, hd red (bar_colors closes) = red).
Proof.
  split; [|split; [|split; [|split]]].
  - unfold exit_color. destruct (flt (plotted_pnl t) (Num 0)).
    + tauto.
    + split; discriminate.
  - unfold exit_color, region_color, fle.
    destruct (plotted_pnl t) as [| | |q]; simpl; try discriminate; try reflexivity.
    destruct (Qltb q 0) eqn:E; [intros _|discriminate]. reflect_Q.
    assert (E1 : Qltb 0 q = false) by (apply Qltb_ge; lra).
    assert (E2 : Qeq_bool 0 q = false).
    { apply not_true_iff_false. intro H. apply Qeq_bool_iff in H. lra. }
    now rewrite E1, E2.
  - unfold exit_color, region_color, fle.
    destruct (plotted_pnl t) as [| | |q]; simpl.
    + split; [reflexivity | intros _; split; reflexivity].
    + split; [intros [_ H]; discriminate | discriminate].
    + split; [intros [H _]; discriminate | discriminate].
    + split; [|discriminate]. intros [H1 H2]. exfalso.
      destruct (Qltb q 0) eqn:E; [discriminate|]. reflect_Q.
      destruct (Qltb 0 q) eqn:E1; [discriminate|]. reflect_Q.
      assert (E2 : Qeq_bool 0 q = true) by (apply Qeq_bool_iff; lra).
      rewrite E2 in H2. discriminate.
  - intro H. unfold exit_color, region_color, plotted_pnl, dict_get.
    rewrite H. split; reflexivity.
  - intros [|c cs]; reflexivity.
Qed.

End Plots.
